(** * ModernDesk helpdesk: row-level security, ticket view, dashboard, session

    A shallow embedding of
    - [supabase/migrations/20250122003413_azure_trail.sql]: the tables, the
      row-level-security (RLS) policies and the way PostgreSQL expands them,
    - [pages/TicketDetail.tsx]: [fetchTicket], [handleStatusChange],
      [handleCommentSubmit],
    - [pages/TicketList.tsx], [pages/Settings.tsx]: their effects and
      handlers,
    - [pages/Dashboard.tsx]: the aggregation in [fetchStats], the
      resolution-rate cell and the bars,
    - [hooks/useAuth.ts], [components/AuthProvider.tsx],
      [components/ProtectedRoute.tsx]: the session store and its guard.

    Conventions.  A table with a primary key is a finite map from the key to
    the remaining columns.  A nullable column is an [option].  Timestamps are
    integers (milliseconds).  JavaScript numbers that hold counts are [nat].
    The average resolution time and the text of the resolution-rate cell are
    computed in IEEE 754 binary64, as JavaScript does; the bounds on the
    percentages are stated on exact rationals ([Q]). *)

From Stdlib Require Import ZArith QArith Qabs Qround Lia Lqa.
From Stdlib Require PrimFloat SpecFloat FloatOps.
From stdpp Require Import base option list gmap strings sorting finite.

Local Open Scope Z_scope.
Local Open Scope string_scope.

(** ** Schema *)

Definition uuid := string.

Inductive user_role := client | agent | manager.
Inductive ticket_status := open | pending | resolved | closed.
Inductive ticket_priority := low | medium | high | urgent.
Inductive article_status := draft | pending_review | published.

Global Instance user_role_eq_dec : EqDecision user_role.
Proof. solve_decision. Defined.
Global Instance ticket_status_eq_dec : EqDecision ticket_status.
Proof. solve_decision. Defined.
Global Instance ticket_priority_eq_dec : EqDecision ticket_priority.
Proof. solve_decision. Defined.
Global Instance article_status_eq_dec : EqDecision article_status.
Proof. solve_decision. Defined.

(** [CREATE TABLE users]; the key is [id]. *)
Module users.
Record row := Row {
  role : user_role;
  full_name : option string;
  avatar_url : option string }.
End users.

(** [CREATE TABLE categories]; the key is [id]. *)
Module categories.
Record row := Row {
  name : string;
  description : option string }.
End categories.

(** [CREATE TABLE tickets]; the key is [id]. *)
Module tickets.
Record row := Row {
  subject : string;
  description : string;
  status : ticket_status;
  priority : ticket_priority;
  category_id : option uuid;
  created_by : option uuid;
  assigned_to : option uuid;
  sla_due_at : option Z;
  created_at : option Z;
  updated_at : option Z }.

(** [SET status = s] *)
Definition set_status (s : ticket_status) (t : row) : row :=
  Row (subject t) (description t) s (priority t) (category_id t)
      (created_by t) (assigned_to t) (sla_due_at t) (created_at t)
      (updated_at t).
End tickets.

(** [CREATE TABLE ticket_comments]; the key is [id]. *)
Module ticket_comments.
Record row := Row {
  ticket_id : option uuid;
  content : string;
  internal_note : bool;
  created_by : option uuid;
  created_at : option Z;
  updated_at : option Z }.
End ticket_comments.

(** [CREATE TABLE knowledge_base]; the key is [id]. *)
Module knowledge_base.
Record row := Row {
  title : string;
  content : string;
  category_id : option uuid;
  status : article_status;
  author_id : option uuid;
  approver_id : option uuid;
  created_at : option Z;
  updated_at : option Z }.
End knowledge_base.

(** [CREATE TABLE canned_responses]; the key is [id]. *)
Module canned_responses.
Record row := Row {
  title : string;
  content : string;
  created_by : option uuid;
  created_at : option Z;
  updated_at : option Z }.
End canned_responses.

Record db := Db {
  db_users : gmap uuid users.row;
  db_categories : gmap uuid categories.row;
  db_tickets : gmap uuid tickets.row;
  db_ticket_comments : gmap uuid ticket_comments.row;
  db_knowledge_base : gmap uuid knowledge_base.row;
  db_canned_responses : gmap uuid canned_responses.row }.

Definition with_users (m : gmap uuid users.row) (d : db) : db :=
  Db m (db_categories d) (db_tickets d) (db_ticket_comments d)
     (db_knowledge_base d) (db_canned_responses d).
Definition with_categories (m : gmap uuid categories.row) (d : db) : db :=
  Db (db_users d) m (db_tickets d) (db_ticket_comments d)
     (db_knowledge_base d) (db_canned_responses d).
Definition with_tickets (m : gmap uuid tickets.row) (d : db) : db :=
  Db (db_users d) (db_categories d) m (db_ticket_comments d)
     (db_knowledge_base d) (db_canned_responses d).
Definition with_ticket_comments (m : gmap uuid ticket_comments.row) (d : db)
    : db :=
  Db (db_users d) (db_categories d) (db_tickets d) m
     (db_knowledge_base d) (db_canned_responses d).

(** The six relations with [ENABLE ROW LEVEL SECURITY]. *)
Inductive relation :=
  | users_rel | categories_rel | tickets_rel | ticket_comments_rel
  | knowledge_base_rel | canned_responses_rel.

Global Instance relation_eq_dec : EqDecision relation.
Proof. solve_decision. Defined.

(** ** Row-level security: the policies

    Every policy is permissive.  PostgreSQL combines the policies of one
    command with OR and denies when none applies.  A [USING] expression
    selects the existing rows a command can see: a row that fails it is
    skipped without an error.  A [WITH CHECK] expression is evaluated on the
    row an [INSERT] or [UPDATE] would store: a row that fails it aborts the
    command with an error.  A policy that omits [WITH CHECK] uses its
    [USING] expression in its place.

    A policy expression is kept here with the two things PostgreSQL does
    with it: before the statement runs, the rewriter walks the relations
    its subqueries select from ([subquery_relations]) and attaches their
    own policies; when the statement runs, the expression has a [value] on
    each row. *)

Inductive command := SELECT | INSERT | UPDATE | DELETE | ALL.

Global Instance command_eq_dec : EqDecision command.
Proof. solve_decision. Defined.

Record expression (R : Type) := EXPR {
  subquery_relations : list relation;
  value : db → uuid → R → bool }.
Arguments EXPR {R} _ _.
Arguments subquery_relations {R} _.
Arguments value {R} _.

Record policy (R : Type) := POLICY {
  pol_name : string;
  pol_cmd : command;
  USING : option (expression R);
  WITH_CHECK : option (expression R) }.
Arguments POLICY {R} _ _ _ _.
Arguments pol_name {R} _.
Arguments pol_cmd {R} _.
Arguments USING {R} _.
Arguments WITH_CHECK {R} _.

Definition applies {R} (p : policy R) (c : command) : bool :=
  bool_decide (pol_cmd p = ALL) || bool_decide (pol_cmd p = c).

Definition using_expr {R} (p : policy R) (d : db) (uid : uuid) (r : R) : bool :=
  match USING p with Some e => value e d uid r | None => true end.

Definition check_expr {R} (p : policy R) (d : db) (uid : uuid) (r : R) : bool :=
  match WITH_CHECK p with
  | Some e => value e d uid r
  | None => using_expr p d uid r
  end.

(** The existing row [r] is visible to command [c] issued by [uid]. *)
Definition passes_using {R} (ps : list (policy R)) (c : command)
    (d : db) (uid : uuid) (r : R) : bool :=
  existsb (λ p, applies p c && using_expr p d uid r) ps.

(** The new row [r] may be stored by command [c] issued by [uid]. *)
Definition passes_check {R} (ps : list (policy R)) (c : command)
    (d : db) (uid : uuid) (r : R) : bool :=
  existsb (λ p, applies p c && check_expr p d uid r) ps.

(** [col = v] for a value [v] that is not NULL, such as [auth.uid()] of a
    signed-in caller: a NULL column compares to NULL, which a policy or a
    filter treats as false. *)
Definition column_is (col : option uuid) (uid : uuid) : bool :=
  match col with Some u => bool_decide (u = uid) | None => false end.

(** The role stored for [uid], when [uid] has a profile row. *)
Definition role_of (d : db) (uid : uuid) : option user_role :=
  users.role <$> db_users d !! uid.

(** The condition [id = auth.uid() AND role IN rs] of the subquery
    [EXISTS (SELECT 1 FROM users WHERE ...)], on the stored rows: [id] is the
    primary key, so at most the caller's own row satisfies it.  The subquery
    selects from [users], which has policies of its own; whether a statement
    that contains it runs at all is decided by [expand] below. *)
Definition exists_user_with_role (d : db) (uid : uuid)
    (rs : list user_role) : bool :=
  match role_of d uid with
  | Some r => bool_decide (r ∈ rs)
  | None => false
  end.

(** -- Users policies.  The row is the key [id] with the other columns. *)
Definition users_policies : list (policy (uuid * users.row)) := [
  POLICY "Users can view their own profile" SELECT
    (Some (EXPR [] (λ d uid r, bool_decide (uid = r.1)))) None;
  POLICY "Agents and managers can view all users" SELECT
    (Some (EXPR [users_rel]
             (λ d uid r, exists_user_with_role d uid [agent; manager]))) None ].

(** -- Tickets policies *)
Definition clients_can_create_tickets : policy tickets.row :=
  POLICY "Clients can create tickets" INSERT
    None (Some (EXPR [] (λ d uid t, column_is (tickets.created_by t) uid))).

Definition tickets_policies : list (policy tickets.row) := [
  POLICY "Clients can view their own tickets" SELECT
    (Some (EXPR [] (λ d uid t, column_is (tickets.created_by t) uid))) None;
  clients_can_create_tickets;
  POLICY "Agents can view all tickets" SELECT
    (Some (EXPR [users_rel] (λ d uid t, exists_user_with_role d uid [agent])))
    None;
  POLICY "Agents can update tickets" UPDATE
    (Some (EXPR [users_rel] (λ d uid t, exists_user_with_role d uid [agent])))
    None;
  POLICY "Managers can view all tickets" ALL
    (Some (EXPR [users_rel] (λ d uid t, exists_user_with_role d uid [manager])))
    None ].

(** [EXISTS (SELECT 1 FROM tickets WHERE tickets.id = ticket_comments.ticket_id
    AND (created_by = auth.uid() OR assigned_to = auth.uid() OR EXISTS ...))].
    The subquery runs as the caller, so it ranges over the tickets the
    caller's SELECT policies expose. *)
Definition comment_ticket_related (d : db) (uid : uuid)
    (c : ticket_comments.row) : bool :=
  match ticket_comments.ticket_id c with
  | None => false
  | Some tid =>
      match db_tickets d !! tid with
      | None => false
      | Some t =>
          passes_using tickets_policies SELECT d uid t
          && (column_is (tickets.created_by t) uid
              || column_is (tickets.assigned_to t) uid
              || exists_user_with_role d uid [agent; manager])
      end
  end.

(** -- Comments policies *)
Definition ticket_comments_policies : list (policy ticket_comments.row) := [
  POLICY "Users can view comments on their tickets" SELECT
    (Some (EXPR [tickets_rel; users_rel] comment_ticket_related)) None;
  POLICY "Agents and managers can create comments" INSERT
    None
    (Some (EXPR [users_rel]
             (λ d uid c, exists_user_with_role d uid [agent; manager]))) ].

(** -- Knowledge base policies *)
Definition knowledge_base_policies : list (policy knowledge_base.row) := [
  POLICY "Anyone can view published articles" SELECT
    (Some (EXPR [] (λ d uid a, bool_decide (knowledge_base.status a = published))))
    None;
  POLICY "Agents can create and edit articles" ALL
    (Some (EXPR [users_rel]
             (λ d uid a, exists_user_with_role d uid [agent; manager]))) None ].

(** -- Categories policies.  [TO authenticated] holds of every caller here:
    a caller is a signed-in user. *)
Definition categories_policies : list (policy categories.row) := [
  POLICY "Categories are viewable by all" SELECT
    (Some (EXPR [] (λ d uid c, true))) None;
  POLICY "Only managers can manage categories" ALL
    (Some (EXPR [users_rel] (λ d uid c, exists_user_with_role d uid [manager])))
    None ].

(** -- Canned responses policies *)
Definition canned_responses_policies : list (policy canned_responses.row) := [
  POLICY "Agents and managers can manage canned responses" ALL
    (Some (EXPR [users_rel]
             (λ d uid c, exists_user_with_role d uid [agent; manager]))) None ].

(** ** Row-level security: the expansion of the policies

    Before it runs a statement, PostgreSQL attaches to every relation of the
    statement the expressions of the policies that apply to it.  When some
    attached expression has a subquery, the rewriter expands the relations
    of the subqueries in the same way, as relations that are selected from,
    and keeps the list of the relations it is in the middle of expanding
    ([active]).  Coming back to a relation of that list is the error 42P17,
    "infinite recursion detected in policy for relation", and the statement
    is not run.  The check reads the policies only: it does not depend on
    the rows or on the caller. *)

Definition expression_relations {R} (e : option (expression R))
    : list relation :=
  match e with Some e => subquery_relations e | None => [] end.

(** The relations read by the [USING] expressions a command attaches. *)
Definition using_relations {R} (ps : list (policy R)) (c : command)
    : list relation :=
  concat (map (λ p, if applies p c then expression_relations (USING p) else [])
              ps).

(** The relations read by the expressions a command checks new rows with. *)
Definition check_relations {R} (ps : list (policy R)) (c : command)
    : list relation :=
  concat (map (λ p, if applies p c
                    then expression_relations
                           (match WITH_CHECK p with
                            | Some e => Some e
                            | None => USING p
                            end)
                    else [])
              ps).

Definition using_relations_of (rel : relation) (c : command) : list relation :=
  match rel with
  | users_rel => using_relations users_policies c
  | categories_rel => using_relations categories_policies c
  | tickets_rel => using_relations tickets_policies c
  | ticket_comments_rel => using_relations ticket_comments_policies c
  | knowledge_base_rel => using_relations knowledge_base_policies c
  | canned_responses_rel => using_relations canned_responses_policies c
  end.

Definition check_relations_of (rel : relation) (c : command) : list relation :=
  match rel with
  | users_rel => check_relations users_policies c
  | categories_rel => check_relations categories_policies c
  | tickets_rel => check_relations tickets_policies c
  | ticket_comments_rel => check_relations ticket_comments_policies c
  | knowledge_base_rel => check_relations knowledge_base_policies c
  | canned_responses_rel => check_relations canned_responses_policies c
  end.

(** The statements the pages send: a [SELECT]; an [INSERT] that returns no
    column; an [UPDATE] and a [DELETE] with a [WHERE] clause, which reads
    the rows and therefore attaches the SELECT policies too. *)
Inductive statement_kind :=
  | select_stmt | insert_stmt | update_where_stmt | delete_where_stmt.

(** The relations read by the subqueries of everything a statement of kind
    [k] attaches to its relation [rel]. *)
Definition attached_relations (k : statement_kind) (rel : relation)
    : list relation :=
  match k with
  | select_stmt => using_relations_of rel SELECT
  | insert_stmt => check_relations_of rel INSERT
  | update_where_stmt =>
      using_relations_of rel UPDATE ++ check_relations_of rel UPDATE
      ++ using_relations_of rel SELECT
  | delete_where_stmt =>
      using_relations_of rel DELETE ++ using_relations_of rel SELECT
  end.

(** The expansions of a list of relations, one after the other: the first
    that does not end well decides. *)
Fixpoint expand_each {A} (one : A → option bool) (rs : list A) : option bool :=
  match rs with
  | [] => Some true
  | r :: rs' =>
      match one r with
      | Some true => expand_each one rs'
      | other => other
      end
  end.

(** The rewriter at relation [rel], whose attached expressions read
    [subqueries]: [Some true] when the expansion ends, [Some false] when it
    comes back to a relation it is expanding, [None] when [fuel] runs out
    (with six relations, six levels always suffice: [expand_answers]). *)
Fixpoint expand (fuel : nat) (active : list relation) (rel : relation)
    (subqueries : list relation) : option bool :=
  match subqueries with
  | [] => Some true
  | _ :: _ =>
      if bool_decide (rel ∈ active) then Some false
      else
        match fuel with
        | O => None
        | S fuel' =>
            expand_each
              (λ r, expand fuel' (rel :: active) r
                           (attached_relations select_stmt r))
              subqueries
        end
  end.

(** A statement of kind [k] on [rel] that also selects from [embeds] (the
    resources embedded in a [select], which become joins). *)
Definition rewrite (k : statement_kind) (rel : relation)
    (embeds : list relation) : option bool :=
  expand_each (λ kr, expand 6 [] kr.2 (attached_relations kr.1 kr.2))
              ((k, rel) :: map (λ r, (select_stmt, r)) embeds).

(** The statement passes the rewriter and is run. *)
Definition accepted (k : statement_kind) (rel : relation)
    (embeds : list relation) : bool :=
  bool_decide (rewrite k rel embeds = Some true).

(** ** Commands at the store boundary *)

Inductive pg_error :=
  | invalid_object_definition (* 42P17: infinite recursion detected in policy *)
  | insufficient_privilege    (* 42501: new row violates row-level security policy *)
  | unique_violation          (* 23505 *)
  | foreign_key_violation.    (* 23503 *)

Inductive result (A : Type) := Ok (a : A) | Err (e : pg_error).
Arguments Ok {A} _.
Arguments Err {A} _.

(** The data of a response: [null] with an error. *)
Definition data {A} (r : result A) : option A :=
  match r with Ok a => Some a | Err _ => None end.

(** The store after a command: unchanged when the command fails. *)
Definition store_after (d : db) (r : result db) : db :=
  match r with Ok d' => d' | Err _ => d end.

(** A nullable foreign key is satisfied by NULL or by an existing key. *)
Definition references {V} (fk : option uuid) (m : gmap uuid V) : bool :=
  match fk with Some k => bool_decide (is_Some (m !! k)) | None => true end.

(** [INSERT INTO tickets] of the row [t] under the key [id] (supplied, or
    drawn by [gen_random_uuid()]). *)
Definition insert_ticket (d : db) (uid : uuid) (id : uuid)
    (t : tickets.row) : result db :=
  if negb (accepted insert_stmt tickets_rel []) then
    Err invalid_object_definition
  else if negb (passes_check tickets_policies INSERT d uid t) then
    Err insufficient_privilege
  else if bool_decide (is_Some (db_tickets d !! id)) then
    Err unique_violation
  else if negb (references (tickets.category_id t) (db_categories d)
                && references (tickets.created_by t) (db_users d)
                && references (tickets.assigned_to t) (db_users d)) then
    Err foreign_key_violation
  else
    Ok (with_tickets (<[id := t]> (db_tickets d)) d).

(** [supabase.from('tickets').update({ status: s }).eq('id', id)], that is
    [UPDATE tickets SET status = s WHERE id = id].  The [WHERE] clause reads
    the row, so the row has to pass the SELECT policies as well as the
    UPDATE policies' [USING]; a row that does not is not a target, and the
    command then updates zero rows and succeeds.  The row to be stored has
    to pass the UPDATE policies' check (and the SELECT policies again);
    when it does not, the command fails.  No trigger touches [updated_at].
    The result carries the number of rows updated. *)
Definition update_ticket_status (d : db) (uid : uuid) (id : uuid)
    (s : ticket_status) : result (nat * db) :=
  if negb (accepted update_where_stmt tickets_rel []) then
    Err invalid_object_definition
  else
    match db_tickets d !! id with
    | None => Ok (0%nat, d)
    | Some t =>
        if passes_using tickets_policies SELECT d uid t
           && passes_using tickets_policies UPDATE d uid t then
          let t' := tickets.set_status s t in
          if passes_check tickets_policies UPDATE d uid t'
             && passes_using tickets_policies SELECT d uid t' then
            Ok (1%nat, with_tickets (<[id := t']> (db_tickets d)) d)
          else Err insufficient_privilege
        else Ok (0%nat, d)
    end.

(** [INSERT INTO ticket_comments] of the row [c] under the key [id]. *)
Definition insert_comment (d : db) (uid : uuid) (id : uuid)
    (c : ticket_comments.row) : result db :=
  if negb (accepted insert_stmt ticket_comments_rel []) then
    Err invalid_object_definition
  else if negb (passes_check ticket_comments_policies INSERT d uid c) then
    Err insufficient_privilege
  else if bool_decide (is_Some (db_ticket_comments d !! id)) then
    Err unique_violation
  else if negb (references (ticket_comments.ticket_id c) (db_tickets d)
                && references (ticket_comments.created_by c) (db_users d)) then
    Err foreign_key_violation
  else
    Ok (with_ticket_comments (<[id := c]> (db_ticket_comments d)) d).

(** [ORDER BY created_at ASC]: ascending, NULLs last. *)
Definition created_at_le (a b : option Z) : Prop :=
  match a, b with
  | Some x, Some y => (x ≤ y)%Z
  | _, None => True
  | None, Some _ => False
  end.

Global Instance created_at_le_dec a b : Decision (created_at_le a b).
Proof. destruct a, b; simpl; apply _. Defined.

Definition comment_order (x y : uuid * ticket_comments.row) : Prop :=
  created_at_le (ticket_comments.created_at x.2) (ticket_comments.created_at y.2).

Global Instance comment_order_dec x y : Decision (comment_order x y).
Proof. unfold comment_order. apply _. Defined.

(** The rows and the order of
    [supabase.from('ticket_comments').select(...).eq('ticket_id', id)
    .order('created_at', { ascending: true })] issued by [uid], for a
    statement that is run. *)
Definition select_comments (d : db) (uid : uuid) (id : uuid)
    : list (uuid * ticket_comments.row) :=
  merge_sort comment_order
    (List.filter
       (λ kc, column_is (ticket_comments.ticket_id kc.2) id
              && passes_using ticket_comments_policies SELECT d uid kc.2)
       (map_to_list (db_ticket_comments d))).

(** The response to that query: the select embeds
    [created_by:users(full_name)], so the statement selects from
    [ticket_comments] and from [users]. *)
Definition query_comments (d : db) (uid : uuid) (id : uuid)
    : result (list (uuid * ticket_comments.row)) :=
  if accepted select_stmt ticket_comments_rel [users_rel] then
    Ok (select_comments d uid id)
  else Err invalid_object_definition.

(** [SELECT ... FROM users] issued by [uid], in no particular order. *)
Definition select_users (d : db) (uid : uuid)
    : result (list (uuid * users.row)) :=
  if accepted select_stmt users_rel [] then
    Ok (List.filter (λ r, passes_using users_policies SELECT d uid r)
                    (map_to_list (db_users d)))
  else Err invalid_object_definition.

(** [supabase.from('users').update({ role: newRole }).eq('id', userId)]:
    the rows the command may target are those passing the SELECT policies
    and the [USING] of the UPDATE policies, as for tickets. *)
Definition update_user_role (d : db) (uid userId : uuid) (newRole : user_role)
    : result (nat * db) :=
  if negb (accepted update_where_stmt users_rel []) then
    Err invalid_object_definition
  else
    match db_users d !! userId with
    | None => Ok (0%nat, d)
    | Some u =>
        if passes_using users_policies SELECT d uid (userId, u)
           && passes_using users_policies UPDATE d uid (userId, u) then
          let u' := users.Row newRole (users.full_name u) (users.avatar_url u) in
          if passes_check users_policies UPDATE d uid (userId, u')
             && passes_using users_policies SELECT d uid (userId, u') then
            Ok (1%nat, with_users (<[userId := u']> (db_users d)) d)
          else Err insufficient_privilege
        else Ok (0%nat, d)
    end.

(** Some ticket or article refers to category [id]
    ([category_id UUID REFERENCES categories(id)], twice). *)
Definition category_is_referenced (d : db) (id : uuid) : bool :=
  existsb (λ kt, column_is (tickets.category_id kt.2) id)
          (map_to_list (db_tickets d))
  || existsb (λ ka, column_is (knowledge_base.category_id ka.2) id)
             (map_to_list (db_knowledge_base d)).

(** [supabase.from('categories').delete().eq('id', id)].  A row that fails
    the [USING] of the DELETE policies is not a target; deleting a row that
    is still referenced violates the foreign key (no [ON DELETE] action is
    declared). *)
Definition delete_category (d : db) (uid id : uuid) : result (nat * db) :=
  if negb (accepted delete_where_stmt categories_rel []) then
    Err invalid_object_definition
  else
    match db_categories d !! id with
    | None => Ok (0%nat, d)
    | Some c =>
        if passes_using categories_policies SELECT d uid c
           && passes_using categories_policies DELETE d uid c then
          if category_is_referenced d id then Err foreign_key_violation
          else Ok (1%nat, with_categories (delete id (db_categories d)) d)
        else Ok (0%nat, d)
    end.

(** ** The ticket page ([TicketDetail]) *)

Module TicketDetail.

Inductive toast := toast_error (msg : string) | toast_success (msg : string).

(** The component's [useState] cells, the notifications it has raised
    (oldest first) and the target of its last [navigate]. *)
Record state := State {
  ticket : option (uuid * tickets.row);
  comments : list (uuid * ticket_comments.row);
  newComment : string;
  isInternalNote : bool;
  loading : bool;
  toasts : list toast;
  navigated : option string }.

Definition initial : state := State None [] "" false true [] None.

(** [supabase.from('tickets').select(...).eq('id', id).single()]: the
    select embeds [categories] and, twice, [users].  [None] is a response
    with an error: the statement is not run, or no row comes back. *)
Definition select_ticket_single (d : db) (uid id : uuid)
    : option (uuid * tickets.row) :=
  if accepted select_stmt tickets_rel [categories_rel; users_rel; users_rel]
  then
    match db_tickets d !! id with
    | Some t =>
        if passes_using tickets_policies SELECT d uid t then Some (id, t)
        else None
    | None => None
    end
  else None.

(** [fetchTicket] for the route parameter [id]: without an id it returns;
    when the ticket query fails it notifies, navigates to the list and
    returns; otherwise it stores the ticket, then the comments when their
    query has no error, and clears [loading]. *)
Definition fetchTicket (d : db) (uid id : uuid) (st : state) : state :=
  if bool_decide (id = "") then st
  else
    match select_ticket_single d uid id with
    | None =>
        State (ticket st) (comments st) (newComment st) (isInternalNote st)
              (loading st)
              (toasts st ++ [toast_error "Failed to load ticket"])
              (Some "/tickets")
    | Some ticketData =>
        State (Some ticketData)
              (match query_comments d uid id with
               | Ok commentsData => commentsData
               | Err _ => comments st
               end)
              (newComment st) (isInternalNote st) false (toasts st)
              (navigated st)
    end.

(** [handleStatusChange]: the update is sent for the loaded ticket; an
    error is notified, and without an error the page's copy of the ticket
    takes the new status. *)
Definition handleStatusChange (d : db) (uid : uuid) (newStatus : ticket_status)
    (st : state) : db * state :=
  match ticket st with
  | None => (d, st)
  | Some (id, t) =>
      match update_ticket_status d uid id newStatus with
      | Err _ =>
          (d, State (ticket st) (comments st) (newComment st)
                    (isInternalNote st) (loading st)
                    (toasts st ++ [toast_error "Failed to update status"])
                    (navigated st))
      | Ok (_, d') =>
          (d', State (Some (id, tickets.set_status newStatus t)) (comments st)
                     (newComment st) (isInternalNote st) (loading st)
                     (toasts st ++ [toast_success "Status updated successfully"])
                     (navigated st))
      end
  end.

(** The row [handleCommentSubmit] sends; [created_at] and [updated_at] take
    their column default [now()]. *)
Definition comment_row (uid id : uuid) (now : Z) (st : state)
    : ticket_comments.row :=
  ticket_comments.Row (Some id) (newComment st) (isInternalNote st)
                      (Some uid) (Some now) (Some now).

(** [handleCommentSubmit]: the insert is sent; an error is notified;
    without an error the comments are fetched again, kept when the
    response has data, and the form is cleared.  [cid] is the key
    [gen_random_uuid()] draws, [now] the time of the insert. *)
Definition handleCommentSubmit (d : db) (uid cid : uuid) (now : Z)
    (st : state) : db * state :=
  match ticket st with
  | None => (d, st)
  | Some (id, _) =>
      match insert_comment d uid cid (comment_row uid id now st) with
      | Err _ =>
          (d, State (ticket st) (comments st) (newComment st)
                    (isInternalNote st) (loading st)
                    (toasts st ++ [toast_error "Failed to add comment"])
                    (navigated st))
      | Ok d' =>
          (d', State (ticket st)
                     (match query_comments d' uid id with
                      | Ok newComments => newComments
                      | Err _ => comments st
                      end)
                     "" false (loading st)
                     (toasts st ++ [toast_success "Comment added successfully"])
                     (navigated st))
      end
  end.

(** What can happen to a mounted page of user [uid]: the effect runs for a
    route id, the user edits the form or uses a handler, or other sessions
    change the store. *)
Inductive event :=
  | Mount (id : uuid)
  | SetNewComment (text : string)
  | SetIsInternalNote (b : bool)
  | StatusChange (s : ticket_status)
  | CommentSubmit (cid : uuid) (now : Z)
  | StoreChanged (d' : db).

Definition step (uid : uuid) (e : event) (c : db * state) : db * state :=
  let (d, st) := c in
  match e with
  | Mount id => (d, fetchTicket d uid id st)
  | SetNewComment text =>
      (d, State (ticket st) (comments st) text (isInternalNote st)
                (loading st) (toasts st) (navigated st))
  | SetIsInternalNote b =>
      (d, State (ticket st) (comments st) (newComment st) b
                (loading st) (toasts st) (navigated st))
  | StatusChange s => handleStatusChange d uid s st
  | CommentSubmit cid now => handleCommentSubmit d uid cid now st
  | StoreChanged d' => (d', st)
  end.

Definition run (uid : uuid) (es : list event) (c : db * state) : db * state :=
  fold_left (λ c e, step uid e c) es c.

End TicketDetail.

(** ** A small deployment used in the examples

    The rows are those a deployment holds once its owner has stored them;
    the table owner and the service role are not subject to the policies. *)

Module Scenario.

Definition db0 : db :=
  Db (<["A" := users.Row client (Some "Alice") None]>
      (<["B" := users.Row client (Some "Bob") None]>
      (<["G" := users.Row agent (Some "Grace") None]>
      (<["M" := users.Row manager (Some "Mia") None]> ∅))))
     ∅ ∅ ∅ ∅ ∅.

(** The ticket client A files. *)
Definition T1 : tickets.row :=
  tickets.Row "Printer" "It does not print" open medium None
              (Some "A") None None (Some 100) (Some 100).

(** The same request naming client B as the creator. *)
Definition T1_as_B : tickets.row :=
  tickets.Row "Printer" "It does not print" open medium None
              (Some "B") None None (Some 100) (Some 100).

Definition db1 : db := with_tickets (<["T1" := T1]> ∅) db0.

(** A public reply and an internal note of agent G on T1. *)
Definition C0 : ticket_comments.row :=
  ticket_comments.Row (Some "T1") "Have you tried another cable?" false
                      (Some "G") (Some 150) (Some 150).

Definition C1 : ticket_comments.row :=
  ticket_comments.Row (Some "T1") "Customer is on the legacy plan" true
                      (Some "G") (Some 200) (Some 200).

Definition db2 : db :=
  with_ticket_comments (<["C1" := C1]> (<["C0" := C0]> ∅)) db1.

(** A user opens T1, ticks "Internal note", types and submits. *)
Definition adds_note : list TicketDetail.event :=
  [ TicketDetail.Mount "T1";
    TicketDetail.SetIsInternalNote true;
    TicketDetail.SetNewComment "Customer is on the legacy plan";
    TicketDetail.CommentSubmit "C2" 300 ].

End Scenario.

(** ** JavaScript objects used as dictionaries

    [fetchStats] accumulates into object literals ([{}]) and reads them back
    with [Object.entries].  Such an object has its own properties, which
    [Object.entries] lists, and it inherits the properties of
    [Object.prototype], which a read [acc[k]] also finds.  The own
    properties are a finite map; the order of [Object.entries] is not
    represented. *)

Module JS.

(** The property names of [Object.prototype]. *)
Definition Object_prototype : list string :=
  [ "constructor"; "hasOwnProperty"; "isPrototypeOf"; "propertyIsEnumerable";
    "toLocaleString"; "toString"; "valueOf"; "__proto__";
    "__defineGetter__"; "__defineSetter__"; "__lookupGetter__";
    "__lookupSetter__" ].

(** What a read [acc[k]] finds: an own property, a function or object
    inherited from [Object.prototype], or [undefined]. *)
Inductive lookup_result (A : Type) :=
  | own (v : A)
  | inherited
  | undefined.
Arguments own {A} _.
Arguments inherited {A}.
Arguments undefined {A}.

Definition get {A} (acc : gmap string A) (k : string) : lookup_result A :=
  match acc !! k with
  | Some v => own v
  | None =>
      if bool_decide (k ∈ Object_prototype) then inherited else undefined
  end.

(** A value stored by [acc[category] = (acc[category] || 0) + 1]: a number,
    or the non-empty string that [+ 1] makes of a non-number (its text
    is not represented). *)
Inductive value := number (n : nat) | text.

(** [acc[k] = v] for a primitive [v]: it defines an own property, except
    that the [__proto__] setter ignores a primitive. *)
Definition set_primitive (acc : gmap string value) (k : string) (v : value)
    : gmap string value :=
  if bool_decide (k = "__proto__") then acc else <[k := v]> acc.

(** [(x || 0) + 1]: a number is incremented ([0 || 0] is [0]);
    [undefined] is replaced by [0]; a function, an object or a non-empty
    string is truthy and [+] concatenates its text with ["1"]. *)
Definition or_zero_plus_one (x : lookup_result value) : value :=
  match x with
  | own (number n) => number (n + 1)
  | own text => text
  | inherited => text
  | undefined => number 1
  end.

Definition entries {A} (acc : gmap string A) : list (string * A) :=
  map_to_list acc.

End JS.

(** ** JavaScript numbers

    A JavaScript number is an IEEE 754 binary64 value; [+], [-], [*] and [/]
    round to nearest, ties to even. *)

Module JSNumber.

(** The number an integer becomes: the nearest double, ties to even.  An
    integer of magnitude below 2^53 is a double already. *)
Definition number_of_Z (z : Z) : PrimFloat.float :=
  FloatOps.SF2Prim
    (SpecFloat.binary_normalize FloatOps.prec FloatOps.emax z 0 false).

Definition number_of_nat (n : nat) : PrimFloat.float :=
  number_of_Z (Z.of_nat n).

(** The real number a finite double stands for. *)
Definition exact (x : PrimFloat.float) : option Q :=
  match FloatOps.Prim2SF x with
  | SpecFloat.S754_zero _ => Some 0%Q
  | SpecFloat.S754_finite s m e =>
      Some ((if s then -(1) else 1) * inject_Z (Z.pos m) * (2 # 1) ^ e)%Q
  | _ => None
  end.

(** What [toFixed(1)] returns: a sign and the digits of an integer [n]
    with a point before the last one, that is [n / 10]; or, for a number
    that is not finite or is at least 10^21, what [toString] returns. *)
Inductive fixed_text :=
  | tenths (negative : bool) (n : Z)
  | as_toString.

(** [Number.prototype.toFixed] with one fraction digit: "let n be an
    integer for which n / 10 - x is as close to zero as possible; if
    there are two such n, pick the larger n", on the magnitude of [x],
    with a minus sign when [x < 0]. *)
Definition toFixed1 (x : PrimFloat.float) : fixed_text :=
  match exact x with
  | None => as_toString
  | Some q =>
      if Qle_bool (inject_Z (10 ^ 21)) (Qabs q) then as_toString
      else tenths (negb (Qle_bool 0%Q q)) (Qfloor (10 * Qabs q + (1 # 2))%Q)
  end.

End JSNumber.

(** ** The dashboard ([Dashboard]) *)

Module Dashboard.

(** A row of [ticketStats].  [category] is the joined [categories(name)]
    ([None] when the ticket has no category); [assigned_to] is the joined
    [users(full_name)] ([None] when the ticket has no assignee, [Some None]
    when the assignee has no name); the timestamps are what
    [new Date(...).getTime()] returns, in milliseconds. *)
Record ticket_stat := TicketStat {
  status : ticket_status;
  priority : ticket_priority;
  category : option string;
  assigned_to : option (option string);
  created_at : Z;
  updated_at : Z }.

Definition is_resolved (t : ticket_stat) : bool :=
  bool_decide (status t = resolved).

Definition openCount (ticketStats : list ticket_stat) : nat :=
  length (List.filter (λ t, bool_decide (status t = open)) ticketStats).
Definition resolvedCount (ticketStats : list ticket_stat) : nat :=
  length (List.filter is_resolved ticketStats).
Definition pendingCount (ticketStats : list ticket_stat) : nat :=
  length (List.filter (λ t, bool_decide (status t = pending)) ticketStats).
Definition urgentCount (ticketStats : list ticket_stat) : nat :=
  length (List.filter (λ t, bool_decide (priority t = urgent)) ticketStats).

(** [ticket.category?.name || 'Uncategorized']: the empty name is falsy. *)
Definition category_of (ticket : ticket_stat) : string :=
  match category ticket with
  | Some name => if bool_decide (name = "") then "Uncategorized" else name
  | None => "Uncategorized"
  end.

Definition categoryCount (ticketStats : list ticket_stat)
    : gmap string JS.value :=
  fold_left
    (λ acc ticket,
       let category := category_of ticket in
       JS.set_primitive acc category
         (JS.or_zero_plus_one (JS.get acc category)))
    ticketStats ∅.

Definition ticketsByCategory (ticketStats : list ticket_stat)
    : list (string * JS.value) :=
  JS.entries (categoryCount ticketStats).

Record agent_stats := AgentStats { count : nat; resolved_count : nat }.

(** [ticket.assigned_to?.full_name] when it is truthy. *)
Definition agent_of (ticket : ticket_stat) : option string :=
  match assigned_to ticket with
  | Some (Some full_name) =>
      if bool_decide (full_name = "") then None else Some full_name
  | _ => None
  end.

Definition incr_count (s : agent_stats) : agent_stats :=
  AgentStats (count s + 1) (resolved_count s).
Definition incr_resolved (s : agent_stats) : agent_stats :=
  AgentStats (count s) (resolved_count s + 1).

(** One round of the [agentPerformance] reducer; [name] is the source's
    [agent], the assignee's name.  [acc[agent]] is
    initialised when it is falsy; an own entry and an inherited object are
    truthy.  [acc[agent].count++] and [acc[agent].resolved++] update the
    object in place; when [acc[agent]] is inherited they write to that
    object and [acc] itself gets no own property.  (The [resolved] counter
    is [resolved_count] here.) *)
Definition agentPerformance_step (acc : gmap string agent_stats)
    (ticket : ticket_stat) : gmap string agent_stats :=
  match agent_of ticket with
  | None => acc
  | Some name =>
      let acc1 :=
        match JS.get acc name with
        | JS.undefined => <[name := AgentStats 0 0]> acc
        | _ => acc
        end in
      let acc2 := alter incr_count name acc1 in
      if is_resolved ticket then alter incr_resolved name acc2 else acc2
  end.

Definition agentPerformance (ticketStats : list ticket_stat)
    : gmap string agent_stats :=
  fold_left agentPerformance_step ticketStats ∅.

Definition ticketsByAgent (ticketStats : list ticket_stat)
    : list (string * agent_stats) :=
  JS.entries (agentPerformance ticketStats).

(** [(resolved.getTime() - created.getTime()) / (1000 * 60 * 60)], a
    JavaScript number.  The two times are integers of magnitude at most
    8.64e15, below 2^53, so they are doubles, and the IEEE difference of
    two doubles is their exact difference rounded once: it is
    [number_of_Z (resolved - created)].  The division rounds again. *)
Definition hours_between (created resolved : Z) : PrimFloat.float :=
  PrimFloat.div (JSNumber.number_of_Z (resolved - created))
                (JSNumber.number_of_Z (1000 * 60 * 60)).

(** [resolvedTickets.length > 0 ? resolvedTickets.reduce((acc, ticket) =>
    acc + hours, 0) / resolvedTickets.length : 0] *)
Definition avgResolutionTime (ticketStats : list ticket_stat)
    : PrimFloat.float :=
  let resolvedTickets := List.filter is_resolved ticketStats in
  if bool_decide (length resolvedTickets = 0%nat) then PrimFloat.zero
  else
    PrimFloat.div
      (fold_left
         (λ acc ticket,
            PrimFloat.add acc
              (hours_between (created_at ticket) (updated_at ticket)))
         resolvedTickets PrimFloat.zero)
      (JSNumber.number_of_nat (length resolvedTickets)).

Module DashboardStats.
Record t := Make {
  openTickets : nat;
  resolvedTickets : nat;
  pendingTickets : nat;
  urgentTickets : nat;
  avgResponseTime : PrimFloat.float;
  avgResolutionTime : PrimFloat.float;
  ticketsByCategory : list (string * JS.value);
  ticketsByAgent : list (string * agent_stats) }.
End DashboardStats.

(** The [useState] initial value. *)
Definition initialStats : DashboardStats.t :=
  DashboardStats.Make 0 0 0 0 PrimFloat.zero PrimFloat.zero [] [].

(** The argument of [setStats] in [fetchStats]. *)
Definition fetchStats (ticketStats : list ticket_stat) : DashboardStats.t :=
  DashboardStats.Make
    (openCount ticketStats) (resolvedCount ticketStats)
    (pendingCount ticketStats) (urgentCount ticketStats)
    PrimFloat.zero (avgResolutionTime ticketStats)
    (ticketsByCategory ticketStats) (ticketsByAgent ticketStats).

(** What the "Resolution Rate" card shows before the percent sign: the
    number [0], or the string [toFixed(1)] returns. *)
Inductive rate_text := literal_zero | fixed (s : JSNumber.fixed_text).

(** [stats.resolvedTickets > 0
      ? ((stats.resolvedTickets / (stats.openTickets + stats.pendingTickets
          + stats.resolvedTickets)) * 100).toFixed(1)
      : 0].  The counts are below 2^53, so their sum is exact. *)
Definition resolutionRateText (stats : DashboardStats.t) : rate_text :=
  if bool_decide (0 < DashboardStats.resolvedTickets stats)%nat then
    fixed
      (JSNumber.toFixed1
         (PrimFloat.mul
            (PrimFloat.div
               (JSNumber.number_of_nat (DashboardStats.resolvedTickets stats))
               (JSNumber.number_of_nat
                  (DashboardStats.openTickets stats
                   + DashboardStats.pendingTickets stats
                   + DashboardStats.resolvedTickets stats)))
            (JSNumber.number_of_Z 100)))
  else literal_zero.

(** The same card on exact rationals, for the bounds: what the slot
    renders is a number, or a number handed to [toFixed(digits)]. *)
Inductive rendered := plain (x : Q) | toFixed (digits : nat) (x : Q).

(** The number a slot shows, before formatting. *)
Definition number_shown (r : rendered) : Q :=
  match r with plain x => x | toFixed _ x => x end.

Definition of_nat (n : nat) : Q := inject_Z (Z.of_nat n).

(** The expression of the "Resolution Rate" card, on exact rationals. *)
Definition resolutionRate (stats : DashboardStats.t) : rendered :=
  if bool_decide (0 < DashboardStats.resolvedTickets stats)%nat then
    toFixed 1
      (of_nat (DashboardStats.resolvedTickets stats)
       / of_nat (DashboardStats.openTickets stats
                 + DashboardStats.pendingTickets stats
                 + DashboardStats.resolvedTickets stats)
       * 100)%Q
  else plain 0%Q.

End Dashboard.

(** ** Quantities the dashboard is meant to show

    These follow the wording of the specification, not the code. *)

Module DashboardSpec.
Import Dashboard.

(** The arithmetic mean of a list of rationals. *)
Definition mean (xs : list Q) : Q :=
  (foldr Qplus 0 xs / of_nat (length xs))%Q.

(** The resolution time of a ticket, in hours. *)
Definition resolution_hours (t : ticket_stat) : Q :=
  (inject_Z (updated_at t - created_at t) / 3600000)%Q.

(** The resolution time of a ticket in hours, as a double. *)
Definition resolution_hours_double (t : ticket_stat) : PrimFloat.float :=
  PrimFloat.div (JSNumber.number_of_Z (updated_at t - created_at t))
                (JSNumber.number_of_Z 3600000).

(** The mean of a list of doubles in double arithmetic: their sum from 0,
    left to right, divided by their number. *)
Definition double_mean (xs : list PrimFloat.float) : PrimFloat.float :=
  PrimFloat.div (fold_left PrimFloat.add xs PrimFloat.zero)
                (JSNumber.number_of_nat (length xs)).

(** The number of tickets whose status is [s]. *)
Definition with_status (s : ticket_status) (ts : list ticket_stat) : nat :=
  length (List.filter (λ t, bool_decide (status t = s)) ts).

(** resolved / (open + pending + resolved) × 100 *)
Definition rate (o p r : nat) : Q :=
  (of_nat r / of_nat (o + p + r) * 100)%Q.

(** The same quotient and product in double arithmetic. *)
Definition rate_double (o p r : nat) : PrimFloat.float :=
  PrimFloat.mul
    (PrimFloat.div (JSNumber.number_of_nat r)
                   (JSNumber.number_of_nat (o + p + r)))
    (JSNumber.number_of_Z 100).

(** The number of tickets bearing the category name [c]. *)
Definition tickets_with_category (c : string) (ts : list ticket_stat) : nat :=
  length (List.filter (λ t, bool_decide (category_of t = c)) ts).

(** The sum of the counts of a category breakdown, when every count is a
    number. *)
Definition total_count (es : list (string * JS.value)) : option nat :=
  foldr (λ e acc,
           match e.2, acc with
           | JS.number n, Some s => Some (n + s)%nat
           | _, _ => None
           end) (Some 0%nat) es.

(** The number of tickets assigned to the agent called [name], and how
    many of them are resolved. *)
Definition assigned (name : string) (ts : list ticket_stat) : nat :=
  length (List.filter (λ t, bool_decide (agent_of t = Some name)) ts).
Definition assigned_resolved (name : string) (ts : list ticket_stat) : nat :=
  length (List.filter
            (λ t, bool_decide (agent_of t = Some name) && is_resolved t) ts).

End DashboardSpec.

(** A window of three tickets used in the examples: two resolved, after two
    hours and after one hour, and one open. *)
Definition example_window : list Dashboard.ticket_stat :=
  [ Dashboard.TicketStat resolved low (Some "Hardware") (Some (Some "Grace"))
                         0 7200000;
    Dashboard.TicketStat open low (Some "Hardware") None 0 5;
    Dashboard.TicketStat resolved high None (Some (Some "Grace")) 0 3600000 ].

(** Two resolved tickets, closed after a tenth and after a fifth of an
    hour. *)
Definition two_short_tickets : list Dashboard.ticket_stat :=
  [ Dashboard.TicketStat resolved low None None 0 360000;
    Dashboard.TicketStat resolved low None None 0 720000 ].

(** One resolved ticket and two open ones. *)
Definition one_resolved_of_three : list Dashboard.ticket_stat :=
  [ Dashboard.TicketStat resolved low None None 0 3600000;
    Dashboard.TicketStat open low None None 0 0;
    Dashboard.TicketStat open low None None 0 0 ].

(** ** The session store ([useAuth]) *)

Module useAuth.

Record User := MkUser { id : uuid }.

(** The data fields of [AuthState]; the actions are the functions below. *)
Record AuthState := MkAuthState { user : option User; loading : bool }.

Definition initial : AuthState := MkAuthState None true.

Inductive AuthError := MkAuthError (message : string).

(** How an awaited promise settles. *)
Inductive settled (A : Type) := fulfilled (v : A) | rejected (reason : string).
Arguments fulfilled {A} _.
Arguments rejected {A} _.

(** The value [supabase.auth.signOut()] resolves to. *)
Record signOut_response := MkResponse { error : option AuthError }.

(** [signOut]: [await supabase.auth.signOut(); set({ user: null, loading:
    false })].  The argument is how the awaited call settles; a rejection
    propagates out of [signOut] before [set] runs. *)
Definition signOut (external : settled signOut_response) (st : AuthState)
    : settled unit * AuthState :=
  match external with
  | fulfilled _ => (fulfilled tt, MkAuthState None false)
  | rejected reason => (rejected reason, st)
  end.

(** [setUser: (user) => set({ user, loading: false })] *)
Definition setUser (u : option User) (st : AuthState) : AuthState :=
  MkAuthState u false.

End useAuth.

(** * The other pages *)

(** [ORDER BY created_at DESC]: descending, NULLs first. *)
Definition ticket_order_desc (x y : uuid * tickets.row) : Prop :=
  created_at_le (tickets.created_at y.2) (tickets.created_at x.2).

Global Instance ticket_order_desc_dec x y : Decision (ticket_order_desc x y).
Proof. unfold ticket_order_desc. apply _. Defined.

(** ** The ticket list ([TicketList]) *)

Module TicketList.

(** The two selects of the page; [None] is the option 'all'. *)
Record filter_state := Filter {
  status : option ticket_status;
  priority : option ticket_priority }.

Record state := State {
  tickets : list (uuid * tickets.row);
  loading : bool;
  userProfile : option user_role;
  filter : filter_state }.

Definition initial : state := State [] true None (Filter None None).

(** [query.eq(column, value)] when the select is not on 'all'. *)
Definition matches {A} `{EqDecision A} (choice : option A) (v : A) : bool :=
  match choice with Some c => bool_decide (v = c) | None => true end.

(** The rows and the order of the query [fetchTickets] builds, for a
    statement that is run: [.order('created_at', { ascending: false })],
    [.eq('created_by', user.id)] when the fetched profile says client, and
    the two filters. *)
Definition tickets_rows (d : db) (uid : uuid)
    (userProfile : option user_role) (f : filter_state)
    : list (uuid * tickets.row) :=
  merge_sort ticket_order_desc
    (List.filter
       (λ kt, passes_using tickets_policies SELECT d uid kt.2
              && (if bool_decide (userProfile = Some client)
                  then column_is (tickets.created_by kt.2) uid else true)
              && matches (status f) (tickets.status kt.2)
              && matches (priority f) (tickets.priority kt.2))
       (map_to_list (db_tickets d))).

(** The response to that query; the select embeds [categories]. *)
Definition select_tickets (d : db) (uid : uuid)
    (userProfile : option user_role) (f : filter_state)
    : result (list (uuid * tickets.row)) :=
  if accepted select_stmt tickets_rel [categories_rel] then
    Ok (tickets_rows d uid userProfile f)
  else Err invalid_object_definition.

(** [fetchTickets]: the list is replaced when the response has no error;
    [loading] is cleared either way. *)
Definition fetchTickets (d : db) (uid : uuid) (st : state) : state :=
  State (match select_tickets d uid (userProfile st) (filter st) with
         | Ok data => data
         | Err _ => tickets st
         end)
        false (userProfile st) (filter st).

(** [supabase.from('users').select('role').eq('id', user.id).single()]:
    [None] is a response with an error: the statement is not run, or no
    row comes back. *)
Definition select_profile (d : db) (uid : uuid) : option user_role :=
  if accepted select_stmt users_rel [] then
    match db_users d !! uid with
    | Some u =>
        if passes_using users_policies SELECT d uid (uid, u)
        then Some (users.role u) else None
    | None => None
    end
  else None.

(** [fetchUserProfile]: the profile is stored when the response has no
    error. *)
Definition fetchUserProfile (d : db) (uid : uuid) (st : state) : state :=
  match select_profile d uid with
  | Some r => State (tickets st) (loading st) (Some r) (filter st)
  | None => st
  end.

(** One run of the effect: [fetchUserProfile(); if (userProfile)
    fetchTickets();].  The test and the query read the profile of the
    render that scheduled the effect. *)
Definition effect (d : db) (uid : uuid) (st : state) : state :=
  let st1 := match userProfile st with
             | Some _ => fetchTickets d uid st
             | None => st
             end in
  match select_profile d uid with
  | Some r => State (tickets st1) (loading st1) (Some r) (filter st1)
  | None => st1
  end.

Definition setFilter (f : filter_state) (st : state) : state :=
  State (tickets st) (loading st) (userProfile st) f.

(** What happens to a mounted list page: the effect runs against the store
    of the moment, or the user moves a select. *)
Inductive event := Effect (d : db) | SetFilter (f : filter_state).

Definition step (uid : uuid) (st : state) (e : event) : state :=
  match e with
  | Effect d => effect d uid st
  | SetFilter f => setFilter f st
  end.

Definition run (uid : uuid) (es : list event) (st : state) : state :=
  fold_left (step uid) es st.

End TicketList.

(** ** The settings page ([Settings]) *)

Module Settings.

(** A row of the users tab. *)
Record User := MkUser {
  id : uuid;
  email : string;
  full_name : option string;
  role : user_role }.

(** The value of a number input after [parseInt]. *)
Inductive hours := NaN | Hours (n : Z).

Record SLAConfig := MkSLA {
  priority : string;
  response_time : hours;
  resolution_time : hours }.

(** The two field names the SLA table passes to [handleSLAUpdate]. *)
Inductive sla_field := response_time_field | resolution_time_field.

Record state := State {
  categories : list (uuid * categories.row);
  users : list User;
  slaConfig : list SLAConfig;
  toasts : list TicketDetail.toast }.

Definition initial : state :=
  State [] []
    [ MkSLA "urgent" (Hours 1) (Hours 4);
      MkSLA "high" (Hours 4) (Hours 8);
      MkSLA "medium" (Hours 8) (Hours 24);
      MkSLA "low" (Hours 24) (Hours 48) ]
    [].

Definition handleDeleteCategory (d : db) (uid id : uuid) (st : state)
    : db * state :=
  match delete_category d uid id with
  | Err _ =>
      (d, State (categories st) (users st) (slaConfig st)
                (toasts st ++ [TicketDetail.toast_error "Failed to delete category"]))
  | Ok (_, d') =>
      (d', State (List.filter (λ cat, negb (bool_decide (cat.1 = id)))
                              (categories st))
                 (users st) (slaConfig st)
                 (toasts st
                  ++ [TicketDetail.toast_success "Category deleted successfully"]))
  end.

Definition handleUpdateUserRole (d : db) (uid userId : uuid)
    (newRole : user_role) (st : state) : db * state :=
  match update_user_role d uid userId newRole with
  | Err _ =>
      (d, State (categories st) (users st) (slaConfig st)
                (toasts st ++ [TicketDetail.toast_error "Failed to update user role"]))
  | Ok (_, d') =>
      (d', State (categories st)
                 (map (λ u, if bool_decide (id u = userId)
                            then MkUser (id u) (email u) (full_name u) newRole
                            else u)
                      (users st))
                 (slaConfig st)
                 (toasts st
                  ++ [TicketDetail.toast_success "User role updated successfully"]))
  end.

(** [{ ...c, [field]: value }] *)
Definition set_field (field : sla_field) (value : hours) (c : SLAConfig)
    : SLAConfig :=
  match field with
  | response_time_field => MkSLA (priority c) value (resolution_time c)
  | resolution_time_field => MkSLA (priority c) (response_time c) value
  end.

Definition get_field (field : sla_field) (c : SLAConfig) : hours :=
  match field with
  | response_time_field => response_time c
  | resolution_time_field => resolution_time c
  end.

Definition handleSLAUpdate (p : string) (field : sla_field) (value : hours)
    (config : list SLAConfig) : list SLAConfig :=
  map (λ c, if bool_decide (priority c = p) then set_field field value c else c)
      config.

End Settings.

(** ** The dashboard's bars *)

Module DashboardBars.
Import Dashboard.

(** [(agent.resolved / agent.count) * 100], the width of an agent's bar in
    percent. *)
Definition agent_bar (s : agent_stats) : Q :=
  (of_nat (resolved_count s) / of_nat (count s) * 100)%Q.

(** The numeric value of a count: a string of [categoryCount] is not a
    number. *)
Definition to_number (v : JS.value) : option nat :=
  match v with JS.number n => Some n | JS.text => None end.

(** [Math.max(...counts)] when every count is a number: [None] for no
    argument (the result is then [-Infinity]). *)
Definition max_count (ns : list nat) : option nat :=
  match ns with
  | [] => None
  | n :: ns' => Some (foldr Nat.max n ns')
  end.

(** [(category.count / Math.max(...counts)) * 100], the width of a
    category's bar in percent; [None] when the quotient is [NaN]: when a
    count is not a number, or the largest count is 0. *)
Definition category_bar (counts : list JS.value) (v : JS.value) : option Q :=
  match mapM to_number counts, to_number v with
  | Some ns, Some n =>
      match max_count ns with
      | None => Some 0%Q
      | Some O => None
      | Some m => Some (of_nat n / of_nat m * 100)%Q
      end
  | _, _ => None
  end.

Definition category_bars (ticketsByCategory : list (string * JS.value))
    : list (string * option Q) :=
  map (λ category,
         (category.1,
          category_bar (map snd ticketsByCategory) category.2))
      ticketsByCategory.

End DashboardBars.

(** ** The session store's other actions, its provider and its guard *)

Module AuthFlow.
Import useAuth.

(** What [signInWithPassword] and [signUp] resolve to. *)
Record AuthResponse := MkAuthResponse {
  data_user : option User;
  response_error : option AuthError }.

Definition message (e : AuthError) : string :=
  match e with MkAuthError m => m end.

(** [signIn]: an error in the response is thrown; otherwise
    [set({ user: data.user, loading: false })]. *)
Definition signIn (external : settled AuthResponse) (st : AuthState)
    : settled unit * AuthState :=
  match external with
  | rejected reason => (rejected reason, st)
  | fulfilled response =>
      match response_error response with
      | Some e => (rejected (message e), st)
      | None => (fulfilled tt, MkAuthState (data_user response) false)
      end
  end.

(** [signUp]: an error in the response is thrown; otherwise
    [set({ user: response.data.user })] and the response is returned. *)
Definition signUp (external : settled AuthResponse) (st : AuthState)
    : settled AuthResponse * AuthState :=
  match external with
  | rejected reason => (rejected reason, st)
  | fulfilled response =>
      match response_error response with
      | Some e => (rejected (message e), st)
      | None => (fulfilled response,
                 MkAuthState (data_user response) (loading st))
      end
  end.

(** What happens to the store: one of its actions is called, or
    [AuthProvider] receives a session ([getSession] or
    [onAuthStateChange]) and calls [setUser(session?.user ?? null)]. *)
Inductive action :=
  | SignIn (external : settled AuthResponse)
  | SignUp (external : settled AuthResponse)
  | SignOut (external : settled signOut_response)
  | Session (session_user : option User).

Definition apply_action (st : AuthState) (a : action) : AuthState :=
  match a with
  | SignIn external => (signIn external st).2
  | SignUp external => (signUp external st).2
  | SignOut external => (signOut external st).2
  | Session u => setUser u st
  end.

Definition run (actions : list action) (st : AuthState) : AuthState :=
  fold_left apply_action actions st.

(** What [ProtectedRoute] renders at [location]. *)
Inductive element :=
  | Spinner
  | Navigate (to : string) (from : string)
  | Outlet.

Definition ProtectedRoute (st : AuthState) (location : string) : element :=
  if loading st then Spinner
  else match user st with
       | None => Navigate "/login" location
       | Some _ => Outlet
       end.

End AuthFlow.


(** * The expansion of the policies *)

Global Instance relation_finite : Finite relation.
Proof.
  refine {| enum := [users_rel; categories_rel; tickets_rel;
                     ticket_comments_rel; knowledge_base_rel;
                     canned_responses_rel] |}.
  - apply (bool_decide_unpack _). reflexivity.
  - intros []; apply (bool_decide_unpack _); reflexivity.
Defined.

(** At most six relations are being expanded at a time. *)
Lemma active_is_short (active : list relation) :
  NoDup active → (length active ≤ 6)%nat.
Proof.
  intros Hnd.
  change 6%nat with (length (enum relation)).
  apply submseteq_length, NoDup_submseteq; [exact Hnd|].
  intros x _. apply elem_of_enum.
Qed.

Lemma expand_each_answers {A} (one : A → option bool) (rs : list A) :
  (∀ r, one r ≠ None) → expand_each one rs ≠ None.
Proof.
  intros Hone. induction rs as [|r rs IH]; [done|]. cbn [expand_each].
  specialize (Hone r). destruct (one r) as [[]|]; [exact IH | done | done].
Qed.

(** Six levels of expansion are enough: the rewriter always answers. *)
Lemma expand_answers fuel active rel subqueries :
  NoDup active → (6 ≤ fuel + length active)%nat →
  expand fuel active rel subqueries ≠ None.
Proof.
  revert active rel subqueries.
  induction fuel as [|fuel IH]; intros active rel subqueries Hnd Hlen.
  - destruct subqueries as [|q qs]; [done|]. cbn [expand].
    case_bool_decide as Hin; [done|]. exfalso.
    assert (Hnd' : NoDup (rel :: active)) by (constructor; assumption).
    apply active_is_short in Hnd'. simpl in *. lia.
  - destruct subqueries as [|q qs]; [done|]. cbn [expand].
    case_bool_decide as Hin; [done|].
    apply expand_each_answers. intros r. apply IH.
    + constructor; assumption.
    + simpl. lia.
Qed.

Lemma rewrite_answers k rel embeds : rewrite k rel embeds ≠ None.
Proof.
  unfold rewrite. apply expand_each_answers. intros [k' r].
  apply expand_answers; [constructor | simpl; lia].
Qed.

(** The policies of [users] come back to [users]: every statement that
    reads a relation of this schema is stopped by the rewriter. *)
Lemma select_is_rejected rel embeds : accepted select_stmt rel embeds = false.
Proof. destruct rel; reflexivity. Qed.

Lemma update_where_is_rejected rel embeds :
  accepted update_where_stmt rel embeds = false.
Proof. destruct rel; reflexivity. Qed.

Lemma delete_where_is_rejected rel embeds :
  accepted delete_where_stmt rel embeds = false.
Proof. destruct rel; reflexivity. Qed.

Lemma insert_is_rejected rel embeds :
  rel ≠ users_rel → accepted insert_stmt rel embeds = false.
Proof. destruct rel; intros Hrel; try reflexivity. contradiction. Qed.

Lemma insert_ticket_is_rejected d uid id t :
  insert_ticket d uid id t = Err invalid_object_definition.
Proof.
  unfold insert_ticket. rewrite insert_is_rejected by discriminate. reflexivity.
Qed.

Lemma update_ticket_status_is_rejected d uid id s :
  update_ticket_status d uid id s = Err invalid_object_definition.
Proof.
  unfold update_ticket_status. rewrite update_where_is_rejected. reflexivity.
Qed.

Lemma insert_comment_is_rejected d uid id c :
  insert_comment d uid id c = Err invalid_object_definition.
Proof.
  unfold insert_comment. rewrite insert_is_rejected by discriminate.
  reflexivity.
Qed.

Lemma query_comments_is_rejected d uid id :
  query_comments d uid id = Err invalid_object_definition.
Proof. unfold query_comments. rewrite select_is_rejected. reflexivity. Qed.

Lemma select_ticket_single_is_rejected d uid id :
  TicketDetail.select_ticket_single d uid id = None.
Proof.
  unfold TicketDetail.select_ticket_single. rewrite select_is_rejected.
  reflexivity.
Qed.

Lemma no_profile_is_shown_for d uid : TicketList.select_profile d uid = None.
Proof.
  unfold TicketList.select_profile. rewrite select_is_rejected. reflexivity.
Qed.

(** What a response brings, when it brings rows, is what the policies and
    the order of the query let through. *)
Lemma query_comments_rows d uid id rows :
  query_comments d uid id = Ok rows → rows = select_comments d uid id.
Proof.
  unfold query_comments. destruct (accepted _ _ _); [|discriminate].
  intros [= <-]. reflexivity.
Qed.

(** ** The ticket page never holds a ticket *)

Lemma step_keeps_page_empty uid e c :
  TicketDetail.ticket c.2 = None ∧ TicketDetail.comments c.2 = []
  ∧ TicketDetail.loading c.2 = true →
  TicketDetail.ticket (TicketDetail.step uid e c).2 = None
  ∧ TicketDetail.comments (TicketDetail.step uid e c).2 = []
  ∧ TicketDetail.loading (TicketDetail.step uid e c).2 = true.
Proof.
  destruct c as [d st]. cbn [snd]. intros (Ht & Hc & Hl).
  destruct e; cbn [TicketDetail.step snd]; auto.
  - unfold TicketDetail.fetchTicket.
    rewrite select_ticket_single_is_rejected.
    case_bool_decide; cbn; auto.
  - unfold TicketDetail.handleStatusChange. rewrite Ht. cbn. auto.
  - unfold TicketDetail.handleCommentSubmit. rewrite Ht. cbn. auto.
Qed.

Lemma run_keeps_page_empty uid es c :
  TicketDetail.ticket c.2 = None ∧ TicketDetail.comments c.2 = []
  ∧ TicketDetail.loading c.2 = true →
  TicketDetail.ticket (TicketDetail.run uid es c).2 = None
  ∧ TicketDetail.comments (TicketDetail.run uid es c).2 = []
  ∧ TicketDetail.loading (TicketDetail.run uid es c).2 = true.
Proof.
  revert c. induction es as [|e es IH]; intros c Hc; [exact Hc|].
  simpl. apply IH. apply step_keeps_page_empty. exact Hc.
Qed.

(** ** Ordering of comments *)

Global Instance comment_order_total : Total comment_order.
Proof.
  intros [? x] [? y]. unfold comment_order, created_at_le. simpl.
  destruct (ticket_comments.created_at x), (ticket_comments.created_at y);
    try tauto. lia.
Qed.

Global Instance comment_order_trans : Transitive comment_order.
Proof.
  intros [? x] [? y] [? z]. unfold comment_order, created_at_le. simpl.
  destruct (ticket_comments.created_at x), (ticket_comments.created_at y),
    (ticket_comments.created_at z); try tauto. lia.
Qed.

Lemma select_comments_sorted d uid id :
  StronglySorted comment_order (select_comments d uid id).
Proof. unfold select_comments. apply StronglySorted_merge_sort; apply _. Qed.

(** * The claims on row-level security *)

(** C1: a comment row with [internal_note = true] is never returned to a
    caller whose role is client.  The comment query of such a caller is
    answered with the error 42P17 and no data, whatever the ticket; and
    whatever happens on the caller's ticket page, while the store changes
    in any way, no comment held by the page is an internal note (the page
    holds no comment at all). *)
Theorem internal_note_is_never_returned_to_a_client d uid :
  role_of d uid = Some client →
  (∀ id, query_comments d uid id = Err invalid_object_definition
         ∧ data (query_comments d uid id) = None)
  ∧ (∀ es k c,
       (k, c) ∈ TicketDetail.comments
                  (TicketDetail.run uid es (d, TicketDetail.initial)).2 →
       ticket_comments.internal_note c = false).
Proof.
  intros _. split.
  - intros id. rewrite query_comments_is_rejected. split; reflexivity.
  - intros es k c Hin.
    destruct (run_keeps_page_empty uid es (d, TicketDetail.initial))
      as (_ & Hc & _); [repeat split|].
    rewrite Hc in Hin. inversion Hin.
Qed.

Lemma internal_note_is_never_returned_to_a_client_witness :
  role_of Scenario.db2 "A" = Some client
  ∧ db_ticket_comments Scenario.db2 !! "C1" = Some Scenario.C1
  ∧ ticket_comments.internal_note Scenario.C1 = true
  ∧ query_comments Scenario.db2 "A" "T1" = Err invalid_object_definition
  ∧ TicketDetail.comments
      (TicketDetail.run "A" [TicketDetail.Mount "T1"]
         (Scenario.db2, TicketDetail.initial)).2 = [].
Proof.
  pose proof (internal_note_is_never_returned_to_a_client Scenario.db2 "A"
                eq_refl) as [Hq _].
  split; [reflexivity|]. split; [reflexivity|]. split; [reflexivity|].
  split; [exact (proj1 (Hq "T1"))|]. vm_compute. reflexivity.
Defined.

(** C2, as stated, fails: the store does not set [created_by]; client A's
    insert of a ticket that names client B as its creator is answered with
    an error and stores no ticket, so no ticket with [created_by = A] comes
    of it. *)
Lemma client_insert_naming_another_creator_stores_nothing :
  role_of Scenario.db0 "A" = Some client
  ∧ tickets.created_by Scenario.T1_as_B = Some "B"
  ∧ insert_ticket Scenario.db0 "A" "T1" Scenario.T1_as_B
    = Err invalid_object_definition
  ∧ db_tickets
      (store_after Scenario.db0
         (insert_ticket Scenario.db0 "A" "T1" Scenario.T1_as_B)) !! "T1"
    = None.
Proof. vm_compute. repeat split; reflexivity. Qed.

(** C2, amended: the policy "Clients can create tickets" compares the
    [created_by] a ticket is sent with to the acting user's id, and lets the
    row through exactly when they are equal; nothing rewrites the value.  A
    client's insert that supplies another [created_by], or none, is
    answered with an error and leaves the store as it was. *)
Theorem client_insert_created_by_is_checked d uid id t :
  role_of d uid = Some client →
  tickets.created_by t ≠ Some uid →
  (∀ t', check_expr clients_can_create_tickets d uid t' = true
         ↔ tickets.created_by t' = Some uid)
  ∧ check_expr clients_can_create_tickets d uid t = false
  ∧ (∃ e, insert_ticket d uid id t = Err e)
  ∧ store_after d (insert_ticket d uid id t) = d.
Proof.
  intros _ Hother.
  assert (Hcheck : ∀ t', check_expr clients_can_create_tickets d uid t' = true
                         ↔ tickets.created_by t' = Some uid).
  { intros t'. cbn. unfold column_is.
    destruct (tickets.created_by t') as [u|]; [|split; discriminate].
    rewrite bool_decide_eq_true. split; [intros ->; reflexivity|].
    intros [= ->]. reflexivity. }
  split; [exact Hcheck|]. split.
  - destruct (check_expr clients_can_create_tickets d uid t) eqn:E;
      [|reflexivity].
    exfalso. apply Hother, Hcheck, E.
  - rewrite insert_ticket_is_rejected. split; [eexists; reflexivity|].
    reflexivity.
Qed.

Lemma client_insert_created_by_is_checked_witness :
  check_expr clients_can_create_tickets Scenario.db0 "A" Scenario.T1_as_B
  = false
  ∧ (∃ e, insert_ticket Scenario.db0 "A" "T1" Scenario.T1_as_B = Err e)
  ∧ store_after Scenario.db0
      (insert_ticket Scenario.db0 "A" "T1" Scenario.T1_as_B) = Scenario.db0.
Proof.
  apply (client_insert_created_by_is_checked Scenario.db0 "A" "T1"
           Scenario.T1_as_B).
  - reflexivity.
  - discriminate.
Defined.

(** C3: the claim asks that a status update by an agent or a manager
    succeeds and persists.  In the code it does not: agent G's update of
    ticket T1 is answered with the error 42P17 and T1 keeps its status; the
    same holds of every caller, ticket and status, and the ticket page
    then raises "Failed to update status" and keeps its copy. *)
Theorem staff_status_update_is_rejected :
  role_of Scenario.db1 "G" = Some agent
  ∧ role_of Scenario.db1 "M" = Some manager
  ∧ update_ticket_status Scenario.db1 "G" "T1" resolved
    = Err invalid_object_definition
  ∧ update_ticket_status Scenario.db1 "M" "T1" resolved
    = Err invalid_object_definition
  ∧ (∀ d uid id s,
       update_ticket_status d uid id s = Err invalid_object_definition)
  ∧ (∀ d uid s st id t,
       TicketDetail.ticket st = Some (id, t) →
       TicketDetail.handleStatusChange d uid s st
       = (d, TicketDetail.State
               (TicketDetail.ticket st) (TicketDetail.comments st)
               (TicketDetail.newComment st) (TicketDetail.isInternalNote st)
               (TicketDetail.loading st)
               (TicketDetail.toasts st
                ++ [TicketDetail.toast_error "Failed to update status"])
               (TicketDetail.navigated st))).
Proof.
  split; [reflexivity|]. split; [reflexivity|].
  split; [apply update_ticket_status_is_rejected|].
  split; [apply update_ticket_status_is_rejected|].
  split; [apply update_ticket_status_is_rejected|].
  intros d uid s st id t Ht. unfold TicketDetail.handleStatusChange.
  rewrite Ht, update_ticket_status_is_rejected. reflexivity.
Qed.

(** C4: a comment insert succeeds only if the acting user's role is agent
    or manager.  An insert by a caller who is neither never succeeds; an
    insert by a client, on the client's own ticket or any other, is
    answered with an error raised while the row-level security of the
    statement is set up (42P17), and stores nothing. *)
Theorem comment_insert_needs_agent_or_manager d uid id c :
  role_of d uid ≠ Some agent →
  role_of d uid ≠ Some manager →
  (∀ d', insert_comment d uid id c ≠ Ok d')
  ∧ insert_comment d uid id c = Err invalid_object_definition
  ∧ store_after d (insert_comment d uid id c) = d.
Proof.
  intros _ _. rewrite insert_comment_is_rejected.
  split; [discriminate|]. split; reflexivity.
Qed.

Lemma comment_insert_needs_agent_or_manager_witness :
  role_of Scenario.db1 "A" = Some client
  ∧ tickets.created_by Scenario.T1 = Some "A"
  ∧ (∀ d', insert_comment Scenario.db1 "A" "C9"
             (ticket_comments.Row (Some "T1") "Any news?" false (Some "A")
                                  (Some 300) (Some 300)) ≠ Ok d')
  ∧ insert_comment Scenario.db1 "A" "C9"
      (ticket_comments.Row (Some "T1") "Any news?" false (Some "A")
                           (Some 300) (Some 300))
    = Err invalid_object_definition.
Proof.
  split; [reflexivity|]. split; [reflexivity|].
  pose proof (comment_insert_needs_agent_or_manager Scenario.db1 "A" "C9"
                (ticket_comments.Row (Some "T1") "Any news?" false (Some "A")
                                     (Some 300) (Some 300))) as H.
  destruct H as (H1 & H2 & _); [discriminate | discriminate |].
  split; [exact H1 | exact H2].
Defined.

(** ** Order of the comments on the page *)

Lemma step_keeps_comments_sorted uid e c :
  StronglySorted comment_order (TicketDetail.comments c.2) →
  StronglySorted comment_order (TicketDetail.comments (TicketDetail.step uid e c).2).
Proof.
  destruct c as [d st]. intros Hst. destruct e; simpl in *; try exact Hst.
  - unfold TicketDetail.fetchTicket.
    repeat case_match; simpl; try exact Hst.
    erewrite (query_comments_rows _ _ _ _ ltac:(eassumption)).
    apply select_comments_sorted.
  - unfold TicketDetail.handleStatusChange.
    repeat case_match; simpl; exact Hst.
  - unfold TicketDetail.handleCommentSubmit.
    repeat case_match; simpl; try exact Hst.
    erewrite (query_comments_rows _ _ _ _ ltac:(eassumption)).
    apply select_comments_sorted.
Qed.

Lemma run_keeps_comments_sorted uid es c :
  StronglySorted comment_order (TicketDetail.comments c.2) →
  StronglySorted comment_order (TicketDetail.comments (TicketDetail.run uid es c).2).
Proof.
  revert c. induction es as [|e es IH]; intros c Hc; [exact Hc|].
  simpl. apply IH. apply step_keeps_comments_sorted. exact Hc.
Qed.

(** C9: the list a comment fetch returns is in non-decreasing [created_at]
    order (NULLs last), for every store, caller and ticket; and the comment
    list of the page is in that order after the initial load, after
    [handleCommentSubmit], and after any sequence of events. *)
Theorem comments_are_sorted_by_created_at uid d :
  (∀ id, StronglySorted comment_order (select_comments d uid id))
  ∧ (∀ id, StronglySorted comment_order
             (TicketDetail.comments
                (TicketDetail.fetchTicket d uid id TicketDetail.initial)))
  ∧ (∀ es cid now,
       StronglySorted comment_order
         (TicketDetail.comments
            (TicketDetail.handleCommentSubmit
               (TicketDetail.run uid es (d, TicketDetail.initial)).1
               uid cid now
               (TicketDetail.run uid es (d, TicketDetail.initial)).2).2))
  ∧ (∀ es, StronglySorted comment_order
             (TicketDetail.comments
                (TicketDetail.run uid es (d, TicketDetail.initial)).2)).
Proof.
  assert (Hrun : ∀ es, StronglySorted comment_order
             (TicketDetail.comments
                (TicketDetail.run uid es (d, TicketDetail.initial)).2)).
  { intros es. apply run_keeps_comments_sorted. constructor. }
  split; [intros id; apply select_comments_sorted|].
  split; [intros id; apply (Hrun [TicketDetail.Mount id])|].
  split; [|exact Hrun].
  intros es cid now.
  pose proof (step_keeps_comments_sorted uid (TicketDetail.CommentSubmit cid now)
                (TicketDetail.run uid es (d, TicketDetail.initial)) (Hrun es)) as H.
  destruct (TicketDetail.run uid es (d, TicketDetail.initial)) as [d1 st1].
  exact H.
Qed.

(** The order is the one of the timestamps: of the two comments on T1, the
    reply filed at time 150 comes before the note filed at time 200. *)
Example earlier_comment_is_listed_first :
  map fst (select_comments Scenario.db2 "G" "T1") = ["C0"; "C1"].
Proof. vm_compute. reflexivity. Qed.

(** ** Signing out *)

(** C10: whenever a call to [signOut] completes, the state has [user = null]
    and [loading = false]; it completes with that state for every value the
    external sign-out resolves to, with or without an error in it. *)
Theorem signOut_clears_the_session st :
  (∀ response,
     useAuth.signOut (useAuth.fulfilled response) st
     = (useAuth.fulfilled tt, useAuth.MkAuthState None false))
  ∧ (∀ external st',
       useAuth.signOut external st = (useAuth.fulfilled tt, st') →
       useAuth.user st' = None ∧ useAuth.loading st' = false).
Proof.
  split; [reflexivity|].
  intros [response|reason] st'; simpl; intros [= <-]. split; reflexivity.
Qed.

Lemma signOut_clears_the_session_witness :
  useAuth.user (useAuth.MkAuthState None false) = None
  ∧ useAuth.loading (useAuth.MkAuthState None false) = false.
Proof.
  apply (proj2 (signOut_clears_the_session
                  (useAuth.MkAuthState (Some (useAuth.MkUser "A")) false))
               (useAuth.fulfilled
                  (useAuth.MkResponse (Some (useAuth.MkAuthError "network"))))).
  reflexivity.
Defined.

(** * The dashboard's two averages *)

Lemma filter_twice {A} (f : A → bool) (l : list A) :
  List.filter f (List.filter f l) = List.filter f l.
Proof.
  induction l as [|x l IH]; [reflexivity|]. simpl.
  destruct (f x) eqn:E; simpl; rewrite ?E, IH; reflexivity.
Qed.

Lemma fold_left_add_map {A} (f : A → PrimFloat.float) (l : list A) a :
  fold_left (λ acc x, PrimFloat.add acc (f x)) l a
  = fold_left PrimFloat.add (map f l) a.
Proof.
  revert a. induction l as [|x l IH]; intros a; [reflexivity|]. simpl.
  apply IH.
Qed.

(** C5, as stated, fails: for two tickets resolved after 0.1 h and after
    0.2 h the arithmetic mean is 3/20 of an hour, and [avgResolutionTime] is
    the double 5404319552844596 / 2^55 (printed 0.15000000000000002), which
    is neither 3/20 nor the double nearest to it. *)
Lemma avgResolutionTime_is_not_the_exact_mean :
  (DashboardSpec.mean
     (map DashboardSpec.resolution_hours
          (List.filter Dashboard.is_resolved two_short_tickets)) == 3 # 20)%Q
  ∧ JSNumber.exact (Dashboard.avgResolutionTime two_short_tickets)
    = Some (5404319552844596 # 36028797018963968)%Q
  ∧ ¬ (5404319552844596 # 36028797018963968 == 3 # 20)%Q
  ∧ Dashboard.avgResolutionTime two_short_tickets
    ≠ PrimFloat.div (JSNumber.number_of_Z 15) (JSNumber.number_of_Z 100).
Proof.
  split; [vm_compute; reflexivity|].
  split; [vm_compute; reflexivity|].
  split; [vm_compute; discriminate|].
  intros H. apply (f_equal FloatOps.Prim2SF) in H. vm_compute in H.
  discriminate H.
Qed.

(** C5, amended: [avgResolutionTime] is computed in double arithmetic from
    the resolved tickets alone.  It is 0 when the window has no resolved
    ticket.  Otherwise it is the mean in double arithmetic of the resolved
    tickets' resolution times in hours: each [(updated_at - created_at) /
    3600000] rounded to a double, summed from 0 in the order of the window
    with a rounding at each step, and divided by their number.  When the
    only resolved ticket of the window was closed 3600 s after it was
    created, it is exactly 1, whatever the time of creation. *)
Theorem avgResolutionTime_in_double_arithmetic (ts : list Dashboard.ticket_stat) :
  (List.filter Dashboard.is_resolved ts = [] →
   Dashboard.avgResolutionTime ts = PrimFloat.zero)
  ∧ Dashboard.avgResolutionTime ts
    = Dashboard.avgResolutionTime (List.filter Dashboard.is_resolved ts)
  ∧ (List.filter Dashboard.is_resolved ts ≠ [] →
     Dashboard.avgResolutionTime ts
     = DashboardSpec.double_mean
         (map DashboardSpec.resolution_hours_double
              (List.filter Dashboard.is_resolved ts)))
  ∧ (∀ t, List.filter Dashboard.is_resolved ts = [t] →
          Dashboard.updated_at t - Dashboard.created_at t = 3600 * 1000 →
          Dashboard.avgResolutionTime ts = PrimFloat.one).
Proof.
  split; [|split; [|split]].
  - intros Hnone. unfold Dashboard.avgResolutionTime. rewrite Hnone.
    reflexivity.
  - unfold Dashboard.avgResolutionTime. rewrite filter_twice. reflexivity.
  - intros Hsome. unfold Dashboard.avgResolutionTime, DashboardSpec.double_mean.
    destruct (List.filter Dashboard.is_resolved ts) as [|t rest] eqn:E;
      [contradiction|].
    rewrite bool_decide_eq_false_2 by discriminate.
    rewrite fold_left_add_map, length_map. reflexivity.
  - intros t Hone Hhour. unfold Dashboard.avgResolutionTime. rewrite Hone.
    cbn [length fold_left]. rewrite bool_decide_eq_false_2 by discriminate.
    unfold Dashboard.hours_between. rewrite Hhour.
    vm_compute. reflexivity.
Qed.

(** The window of the examples: two hours and one hour make an hour and a
    half, exactly. *)
Example avgResolutionTime_example :
  ∃ q, JSNumber.exact (Dashboard.avgResolutionTime example_window) = Some q
       ∧ (q == 3 # 2)%Q.
Proof. eexists. split; [vm_compute; reflexivity|]. reflexivity. Qed.

(** ** The resolution-rate card *)

(** [toFixed(1)] returns the tenth nearest to the magnitude of its
    argument, the larger one of two. *)
Lemma toFixed1_is_the_nearest_tenth x s n :
  JSNumber.toFixed1 x = JSNumber.tenths s n →
  ∃ q, JSNumber.exact x = Some q
       ∧ s = negb (Qle_bool 0 q)
       ∧ (10 * Qabs q - (1 # 2) < inject_Z n)%Q
       ∧ (inject_Z n <= 10 * Qabs q + (1 # 2))%Q.
Proof.
  unfold JSNumber.toFixed1. destruct (JSNumber.exact x) as [q|]; [|discriminate].
  destruct (Qle_bool _ (Qabs q)); [discriminate|].
  pose proof (Qfloor_le (10 * Qabs q + (1 # 2))) as Hle.
  pose proof (Qlt_floor (10 * Qabs q + (1 # 2))) as Hlt.
  rewrite inject_Z_plus in Hlt. change (inject_Z 1) with 1%Q in Hlt.
  revert Hle Hlt. generalize (Qfloor (10 * Qabs q + (1 # 2))).
  intros m Hle Hlt [= <- <-]. exists q.
  split; [reflexivity|]. split; [reflexivity|].
  split; [lra | exact Hle].
Qed.

Lemma counts_of_a_window (ts : list Dashboard.ticket_stat) :
  Dashboard.DashboardStats.openTickets (Dashboard.fetchStats ts)
  = DashboardSpec.with_status open ts
  ∧ Dashboard.DashboardStats.pendingTickets (Dashboard.fetchStats ts)
    = DashboardSpec.with_status pending ts
  ∧ Dashboard.DashboardStats.resolvedTickets (Dashboard.fetchStats ts)
    = DashboardSpec.with_status resolved ts.
Proof. repeat split; reflexivity. Qed.

(** C6, as stated, fails: with one resolved ticket and two open ones the
    rate is 100/3, and the card shows 33.3. *)
Lemma resolution_rate_is_shown_rounded :
  DashboardSpec.with_status open one_resolved_of_three = 2%nat
  ∧ DashboardSpec.with_status pending one_resolved_of_three = 0%nat
  ∧ DashboardSpec.with_status resolved one_resolved_of_three = 1%nat
  ∧ (DashboardSpec.rate 2 0 1 == 100 # 3)%Q
  ∧ Dashboard.resolutionRateText (Dashboard.fetchStats one_resolved_of_three)
    = Dashboard.fixed (JSNumber.tenths false 333)
  ∧ ¬ (333 # 10 == DashboardSpec.rate 2 0 1)%Q.
Proof.
  split; [reflexivity|]. split; [reflexivity|]. split; [reflexivity|].
  split; [vm_compute; reflexivity|].
  split; [vm_compute; reflexivity|].
  vm_compute. discriminate.
Qed.

(** C6, amended: for every window, with o, p and r the numbers of its open,
    pending and resolved tickets, the card shows the number 0 when r = 0,
    in particular when o + p + r = 0; when r > 0 the sum o + p + r is not 0
    and the card shows r / (o + p + r) × 100, computed in double
    arithmetic, rounded to one decimal place by [toFixed(1)]: the tenth
    nearest to it, the larger one of two.  So a division is made only by a
    sum that is not 0; and when r = 0 the formula itself is 0, so that the
    guard on r and a guard on o + p + r show the same number. *)
Theorem resolution_rate_text_of_a_window (ts : list Dashboard.ticket_stat) :
  (DashboardSpec.with_status resolved ts = 0%nat →
   Dashboard.resolutionRateText (Dashboard.fetchStats ts)
   = Dashboard.literal_zero)
  ∧ ((DashboardSpec.with_status open ts + DashboardSpec.with_status pending ts
      + DashboardSpec.with_status resolved ts = 0)%nat →
     Dashboard.resolutionRateText (Dashboard.fetchStats ts)
     = Dashboard.literal_zero)
  ∧ (DashboardSpec.with_status resolved ts ≠ 0%nat →
     (DashboardSpec.with_status open ts + DashboardSpec.with_status pending ts
      + DashboardSpec.with_status resolved ts ≠ 0)%nat
     ∧ Dashboard.resolutionRateText (Dashboard.fetchStats ts)
       = Dashboard.fixed
           (JSNumber.toFixed1
              (DashboardSpec.rate_double
                 (DashboardSpec.with_status open ts)
                 (DashboardSpec.with_status pending ts)
                 (DashboardSpec.with_status resolved ts))))
  ∧ (∀ s n,
       Dashboard.resolutionRateText (Dashboard.fetchStats ts)
       = Dashboard.fixed (JSNumber.tenths s n) →
       ∃ q, JSNumber.exact
              (DashboardSpec.rate_double
                 (DashboardSpec.with_status open ts)
                 (DashboardSpec.with_status pending ts)
                 (DashboardSpec.with_status resolved ts)) = Some q
            ∧ s = negb (Qle_bool 0 q)
            ∧ (10 * Qabs q - (1 # 2) < inject_Z n)%Q
            ∧ (inject_Z n <= 10 * Qabs q + (1 # 2))%Q)
  ∧ (DashboardSpec.with_status resolved ts = 0%nat →
     (DashboardSpec.rate (DashboardSpec.with_status open ts)
                         (DashboardSpec.with_status pending ts)
                         (DashboardSpec.with_status resolved ts) == 0)%Q).
Proof.
  assert (Hzero : DashboardSpec.with_status resolved ts = 0%nat →
                  Dashboard.resolutionRateText (Dashboard.fetchStats ts)
                  = Dashboard.literal_zero).
  { intros Hr. unfold Dashboard.resolutionRateText.
    destruct (counts_of_a_window ts) as (_ & _ & ->). rewrite Hr.
    reflexivity. }
  assert (Hpos : DashboardSpec.with_status resolved ts ≠ 0%nat →
                 Dashboard.resolutionRateText (Dashboard.fetchStats ts)
                 = Dashboard.fixed
                     (JSNumber.toFixed1
                        (DashboardSpec.rate_double
                           (DashboardSpec.with_status open ts)
                           (DashboardSpec.with_status pending ts)
                           (DashboardSpec.with_status resolved ts)))).
  { intros Hr. unfold Dashboard.resolutionRateText.
    destruct (counts_of_a_window ts) as (-> & -> & ->).
    rewrite bool_decide_eq_true_2 by lia. reflexivity. }
  split; [exact Hzero|].
  split; [intros Hsum; apply Hzero; lia|].
  split; [intros Hr; split; [lia | exact (Hpos Hr)]|].
  split.
  - intros s n Hshown.
    destruct (decide (DashboardSpec.with_status resolved ts = 0%nat)) as [Hr|Hr].
    + rewrite (Hzero Hr) in Hshown. discriminate.
    + rewrite (Hpos Hr) in Hshown. injection Hshown as Hshown.
      apply toFixed1_is_the_nearest_tenth. exact Hshown.
  - intros ->. unfold DashboardSpec.rate, Dashboard.of_nat. simpl.
    unfold Qeq. simpl. reflexivity.
Qed.

(** With no resolved ticket the card shows 0 and the average is 0. *)
Example no_resolved_ticket :
  Dashboard.resolutionRateText
    (Dashboard.fetchStats [Dashboard.TicketStat open low None None 0 5])
  = Dashboard.literal_zero
  ∧ Dashboard.avgResolutionTime [Dashboard.TicketStat open low None None 0 5]
    = PrimFloat.zero.
Proof. split; reflexivity. Qed.

(** ** Tickets by category *)

Lemma categoryCount_snoc ts t :
  Dashboard.categoryCount (ts ++ [t])
  = JS.set_primitive (Dashboard.categoryCount ts) (Dashboard.category_of t)
      (JS.or_zero_plus_one
         (JS.get (Dashboard.categoryCount ts) (Dashboard.category_of t))).
Proof. unfold Dashboard.categoryCount. rewrite fold_left_app. reflexivity. Qed.

Lemma tickets_with_category_snoc c ts t :
  DashboardSpec.tickets_with_category c (ts ++ [t])
  = (DashboardSpec.tickets_with_category c ts
     + if bool_decide (Dashboard.category_of t = c) then 1 else 0)%nat.
Proof.
  unfold DashboardSpec.tickets_with_category.
  rewrite List.filter_app, length_app. simpl.
  destruct (bool_decide (Dashboard.category_of t = c)); reflexivity.
Qed.

Lemma proto_is_inherited : "__proto__" ∈ JS.Object_prototype.
Proof. unfold JS.Object_prototype. set_solver. Qed.

(** Away from the names of [Object.prototype], [categoryCount] holds, for
    each category name that occurs, the number of tickets bearing it. *)
Lemma categoryCount_lookup ts :
  Forall (λ t, Dashboard.category_of t ∉ JS.Object_prototype) ts →
  ∀ c, Dashboard.categoryCount ts !! c
       = if decide (DashboardSpec.tickets_with_category c ts = 0%nat) then None
         else Some (JS.number (DashboardSpec.tickets_with_category c ts)).
Proof.
  induction ts as [|t ts IH] using rev_ind; intros Hall c.
  - reflexivity.
  - apply Forall_app in Hall as [Hts Ht]. apply Forall_inv in Ht.
    specialize (IH Hts).
    rewrite categoryCount_snoc, tickets_with_category_snoc.
    set (c' := Dashboard.category_of t) in *.
    unfold JS.set_primitive. rewrite bool_decide_eq_false_2
      by (intros E; apply Ht; rewrite E; apply proto_is_inherited).
    case_bool_decide as Hc.
    + subst c. rewrite lookup_insert_eq. unfold JS.get. rewrite IH.
      destruct (decide (DashboardSpec.tickets_with_category c' ts = 0%nat))
        as [E|E].
      * rewrite bool_decide_eq_false_2 by exact Ht. rewrite E. reflexivity.
      * simpl. case_decide; [lia|reflexivity].
    + rewrite lookup_insert_ne by exact Hc. rewrite IH, Nat.add_0_r. reflexivity.
Qed.

Lemma total_count_cons c v es :
  DashboardSpec.total_count ((c, v) :: es)
  = match v, DashboardSpec.total_count es with
    | JS.number n, Some s => Some (n + s)%nat
    | _, _ => None
    end.
Proof. reflexivity. Qed.

Lemma total_count_Permutation es es' :
  es ≡ₚ es' → DashboardSpec.total_count es = DashboardSpec.total_count es'.
Proof.
  induction 1 as [|[c v] es es' _ IH|[c v] [c' v'] es|es1 es2 es3 _ IH1 _ IH2].
  - reflexivity.
  - rewrite !total_count_cons, IH. reflexivity.
  - rewrite !total_count_cons.
    destruct v, v', (DashboardSpec.total_count es); try reflexivity.
    f_equal. lia.
  - congruence.
Qed.

(** Away from the names of [Object.prototype], the counts of
    [ticketsByCategory] add up to the number of tickets in the window. *)
Lemma ticketsByCategory_total ts :
  Forall (λ t, Dashboard.category_of t ∉ JS.Object_prototype) ts →
  DashboardSpec.total_count (Dashboard.ticketsByCategory ts) = Some (length ts).
Proof.
  unfold Dashboard.ticketsByCategory, JS.entries.
  induction ts as [|t ts IH] using rev_ind; intros Hall.
  - reflexivity.
  - pose proof (categoryCount_lookup ts) as Hlook.
    apply Forall_app in Hall as [Hts Ht]. apply Forall_inv in Ht.
    specialize (IH Hts). specialize (Hlook Hts (Dashboard.category_of t)).
    rewrite categoryCount_snoc, length_app. simpl.
    set (c := Dashboard.category_of t) in *.
    set (acc := Dashboard.categoryCount ts) in *.
    unfold JS.set_primitive. rewrite bool_decide_eq_false_2
      by (intros E; apply Ht; rewrite E; apply proto_is_inherited).
    unfold JS.get. rewrite Hlook. case_decide as Hn.
    + rewrite bool_decide_eq_false_2 by exact Ht. simpl.
      rewrite (total_count_Permutation _ _
                 (map_to_list_insert acc c (JS.number 1) Hlook)).
      rewrite total_count_cons, IH. f_equal. lia.
    + simpl. rewrite <- insert_delete_eq.
      rewrite (total_count_Permutation _ _
                 (map_to_list_insert (delete c acc) c _ (lookup_delete_eq acc c))).
      rewrite <- (total_count_Permutation _ _ (map_to_list_delete acc c _ Hlook))
        in IH.
      rewrite total_count_cons in IH |- *.
      destruct (DashboardSpec.total_count (map_to_list (delete c acc)));
        [|discriminate].
      injection IH as IH. f_equal. lia.
Qed.

(** C7, evaluated where it fails.  One ticket whose category is named
    "constructor": the entry's count is a string, not the number 1, and the
    counts have no numeric total.  One ticket whose category is named
    "__proto__": the breakdown is empty although the window holds a ticket.
    On the window of the specification (three tickets of category A, one of
    category B) the breakdown is as the claim says. *)
Theorem ticketsByCategory_on_inherited_names :
  Dashboard.ticketsByCategory
    [Dashboard.TicketStat open medium (Some "constructor") None 0 0]
  = [("constructor", JS.text)]
  ∧ DashboardSpec.tickets_with_category "constructor"
      [Dashboard.TicketStat open medium (Some "constructor") None 0 0] = 1%nat
  ∧ DashboardSpec.total_count
      (Dashboard.ticketsByCategory
         [Dashboard.TicketStat open medium (Some "constructor") None 0 0])
    = None
  ∧ Dashboard.ticketsByCategory
      [Dashboard.TicketStat open medium (Some "__proto__") None 0 0]
    = []
  ∧ Dashboard.ticketsByCategory
      [Dashboard.TicketStat open medium (Some "A") None 0 0;
       Dashboard.TicketStat open medium (Some "B") None 0 0;
       Dashboard.TicketStat open medium (Some "A") None 0 0;
       Dashboard.TicketStat open medium (Some "A") None 0 0]
    ≡ₚ [("A", JS.number 3); ("B", JS.number 1)].
Proof.
  split; [vm_compute; reflexivity|]. split; [vm_compute; reflexivity|].
  split; [vm_compute; reflexivity|]. split; [vm_compute; reflexivity|].
  vm_compute. reflexivity.
Qed.

(** ** Tickets by agent *)

Lemma agentPerformance_snoc ts t :
  Dashboard.agentPerformance (ts ++ [t])
  = Dashboard.agentPerformance_step (Dashboard.agentPerformance ts) t.
Proof. unfold Dashboard.agentPerformance. rewrite fold_left_app. reflexivity. Qed.

Lemma assigned_snoc name ts t :
  DashboardSpec.assigned name (ts ++ [t])
  = (DashboardSpec.assigned name ts
     + if bool_decide (Dashboard.agent_of t = Some name) then 1 else 0)%nat.
Proof.
  unfold DashboardSpec.assigned. rewrite List.filter_app, length_app. simpl.
  destruct (bool_decide (Dashboard.agent_of t = Some name)); reflexivity.
Qed.

Lemma assigned_resolved_snoc name ts t :
  DashboardSpec.assigned_resolved name (ts ++ [t])
  = (DashboardSpec.assigned_resolved name ts
     + if bool_decide (Dashboard.agent_of t = Some name)
          && Dashboard.is_resolved t then 1 else 0)%nat.
Proof.
  unfold DashboardSpec.assigned_resolved. rewrite List.filter_app, length_app. simpl.
  destruct (bool_decide (Dashboard.agent_of t = Some name)
            && Dashboard.is_resolved t); reflexivity.
Qed.

Lemma assigned_resolved_le name ts :
  (DashboardSpec.assigned_resolved name ts ≤ DashboardSpec.assigned name ts)%nat.
Proof.
  unfold DashboardSpec.assigned_resolved, DashboardSpec.assigned.
  induction ts as [|t ts IH]; simpl; [lia|].
  destruct (bool_decide (Dashboard.agent_of t = Some name)),
    (Dashboard.is_resolved t); simpl; lia.
Qed.

(** The own entries of [agentPerformance]: none for a name inherited from
    [Object.prototype] or without tickets; otherwise the number of tickets
    assigned to the name and the number of those that are resolved. *)
Lemma agentPerformance_lookup ts name :
  Dashboard.agentPerformance ts !! name
  = if decide (name ∈ JS.Object_prototype
               ∨ DashboardSpec.assigned name ts = 0%nat) then None
    else Some (Dashboard.AgentStats (DashboardSpec.assigned name ts)
                                    (DashboardSpec.assigned_resolved name ts)).
Proof.
  induction ts as [|t ts IH] using rev_ind.
  - simpl. case_decide as H; [reflexivity|]. exfalso. apply H. right. reflexivity.
  - rewrite agentPerformance_snoc, assigned_snoc, assigned_resolved_snoc.
    pose proof (assigned_resolved_le name ts) as Hle.
    set (acc := Dashboard.agentPerformance ts) in *.
    unfold Dashboard.agentPerformance_step.
    destruct (Dashboard.agent_of t) as [a|] eqn:Ha.
    2:{ rewrite bool_decide_eq_false_2 by discriminate. simpl.
        rewrite !Nat.add_0_r. exact IH. }
    destruct (decide (a = name)) as [->|Hne].
    2:{ rewrite bool_decide_eq_false_2 by congruence. simpl.
        rewrite !Nat.add_0_r, <- IH.
        assert (Hin : ∀ m : gmap string Dashboard.agent_stats,
                  (if Dashboard.is_resolved t
                   then alter Dashboard.incr_resolved a
                          (alter Dashboard.incr_count a m)
                   else alter Dashboard.incr_count a m) !! name = m !! name).
        { intros m. destruct (Dashboard.is_resolved t);
            rewrite ?lookup_alter_ne by exact Hne; reflexivity. }
        rewrite Hin. destruct (JS.get acc a); try reflexivity.
        apply lookup_insert_ne. exact Hne. }
    rewrite bool_decide_eq_true_2 by reflexivity. simpl.
    set (n := DashboardSpec.assigned name ts) in *.
    set (r := DashboardSpec.assigned_resolved name ts) in *.
    assert (Hstep : ∀ m : gmap string Dashboard.agent_stats,
              (if Dashboard.is_resolved t
               then alter Dashboard.incr_resolved name
                      (alter Dashboard.incr_count name m)
               else alter Dashboard.incr_count name m) !! name
              = (λ s, Dashboard.AgentStats
                        (Dashboard.count s + 1)
                        (Dashboard.resolved_count s
                         + if Dashboard.is_resolved t then 1 else 0))
                <$> m !! name).
    { intros m. destruct (Dashboard.is_resolved t);
        rewrite ?lookup_alter_eq; destruct (m !! name) as [[k j]|]; simpl;
        unfold Dashboard.incr_resolved, Dashboard.incr_count; simpl;
        rewrite ?Nat.add_0_r; reflexivity. }
    rewrite Hstep. unfold JS.get. rewrite IH.
    destruct (decide (name ∈ JS.Object_prototype ∨ (n + 1)%nat = 0%nat))
      as [[Hp|?]|Hn]; [|lia|].
    + destruct (decide (name ∈ JS.Object_prototype ∨ n = 0%nat)) as [_|Hn'];
        [|tauto].
      rewrite bool_decide_eq_true_2 by exact Hp. rewrite IH. reflexivity.
    + assert (Hp : name ∉ JS.Object_prototype) by tauto.
      destruct (decide (name ∈ JS.Object_prototype ∨ n = 0%nat)) as [[?|E]|Hn'];
        [tauto| |].
      * rewrite bool_decide_eq_false_2 by exact Hp. rewrite lookup_insert_eq.
        simpl. assert (r = 0%nat) as -> by lia. rewrite E. reflexivity.
      * simpl. rewrite IH. reflexivity.
Qed.

(** C8: for every window and every entry of [ticketsByAgent], the resolved
    count is at most the assigned count; the assigned count is the number of
    tickets whose assignee has the entry's name and the resolved count the
    number of those that are resolved, so a ticket without an assignee adds
    to no entry; and removing the tickets without an assignee from the
    window leaves the breakdown as it is. *)
Theorem ticketsByAgent_entries (ts : list Dashboard.ticket_stat) :
  (∀ name s, (name, s) ∈ Dashboard.ticketsByAgent ts →
     (Dashboard.resolved_count s ≤ Dashboard.count s)%nat
     ∧ Dashboard.count s = DashboardSpec.assigned name ts
     ∧ Dashboard.resolved_count s = DashboardSpec.assigned_resolved name ts
     ∧ (0 < Dashboard.count s)%nat)
  ∧ Dashboard.ticketsByAgent
      (List.filter (λ t, bool_decide (is_Some (Dashboard.agent_of t))) ts)
    = Dashboard.ticketsByAgent ts.
Proof.
  split.
  - intros name s Hin. unfold Dashboard.ticketsByAgent, JS.entries in Hin.
    apply elem_of_map_to_list in Hin. rewrite agentPerformance_lookup in Hin.
    case_decide as Hd; [discriminate|]. injection Hin as <-. simpl.
    pose proof (assigned_resolved_le name ts).
    repeat split; lia.
  - unfold Dashboard.ticketsByAgent, Dashboard.agentPerformance. f_equal.
    generalize (∅ : gmap string Dashboard.agent_stats).
    induction ts as [|t ts IH]; intros acc; [reflexivity|].
    cbn [List.filter fold_left].
    destruct (Dashboard.agent_of t) as [a|] eqn:Ha.
    + rewrite bool_decide_eq_true_2 by eauto. cbn [fold_left]. apply IH.
    + rewrite bool_decide_eq_false_2 by (intros [? [=]]). rewrite IH.
      unfold Dashboard.agentPerformance_step at 3. rewrite Ha. reflexivity.
Qed.

Lemma ticketsByAgent_entries_witness :
  (2 ≤ 2)%nat
  ∧ 2%nat = DashboardSpec.assigned "Grace" example_window
  ∧ 2%nat = DashboardSpec.assigned_resolved "Grace" example_window
  ∧ (0 < 2)%nat.
Proof.
  apply (proj1 (ticketsByAgent_entries example_window)
               "Grace" (Dashboard.AgentStats 2 2)).
  vm_compute. left.
Defined.

(** * What the policies leave of the pages *)

(** ** Statements *)

(** No statement that reads rows gets past the policies: every SELECT, and
    every UPDATE or DELETE with a WHERE clause, on any of the six tables is
    stopped while its policies are expanded, whatever it embeds.  The one
    statement the expansion lets through is a plain INSERT into [users],
    for which there is no INSERT policy, so that no row passes.  The
    expansion always comes to an answer. *)
Theorem no_statement_passes_the_policies rel embeds :
  accepted select_stmt rel embeds = false
  ∧ accepted update_where_stmt rel embeds = false
  ∧ accepted delete_where_stmt rel embeds = false
  ∧ (accepted insert_stmt rel embeds = true ↔ rel = users_rel ∧ embeds = [])
  ∧ (∀ d uid r, passes_check users_policies INSERT d uid r = false)
  ∧ (∀ k, rewrite k rel embeds ≠ None).
Proof.
  split; [apply select_is_rejected|].
  split; [apply update_where_is_rejected|].
  split; [apply delete_where_is_rejected|].
  split; [|split; [reflexivity | intros k; apply rewrite_answers]].
  split.
  - intros Hacc. destruct (decide (rel = users_rel)) as [->|Hrel].
    + split; [reflexivity|]. destruct embeds as [|e es]; [reflexivity|].
      exfalso. destruct e; discriminate Hacc.
    + rewrite insert_is_rejected in Hacc by exact Hrel. discriminate.
  - intros [-> ->]. reflexivity.
Qed.

(** No caller is shown a profile, the caller's own included: the list of
    users is answered with the error 42P17, and so is the query for the
    caller's own role, whatever the rows of [users]. *)
Theorem no_profile_is_shown d uid :
  select_users d uid = Err invalid_object_definition
  ∧ data (select_users d uid) = None
  ∧ TicketList.select_profile d uid = None
  ∧ (∀ st, TicketList.fetchUserProfile d uid st = st).
Proof.
  unfold select_users, TicketList.fetchUserProfile, TicketList.select_profile.
  rewrite select_is_rejected. repeat split; reflexivity.
Qed.

(** ** The settings page *)

(** [handleUpdateUserRole] changes no role for any caller, a manager
    included: the update is answered with an error, the page raises
    "Failed to update user role", and the store and the page's list of
    users stay as they were. *)
Theorem user_role_update_is_rejected d uid userId newRole st :
  update_user_role d uid userId newRole = Err invalid_object_definition
  ∧ Settings.handleUpdateUserRole d uid userId newRole st
    = (d, Settings.State
            (Settings.categories st) (Settings.users st) (Settings.slaConfig st)
            (Settings.toasts st
             ++ [TicketDetail.toast_error "Failed to update user role"])).
Proof.
  assert (H : update_user_role d uid userId newRole
              = Err invalid_object_definition).
  { unfold update_user_role. rewrite update_where_is_rejected. reflexivity. }
  split; [exact H|]. unfold Settings.handleUpdateUserRole. rewrite H.
  reflexivity.
Qed.

(** [handleDeleteCategory] deletes no category for any caller, a manager
    included: the delete is answered with an error, the page raises
    "Failed to delete category", and the store and the page's list of
    categories stay as they were. *)
Theorem category_delete_is_rejected d uid id st :
  delete_category d uid id = Err invalid_object_definition
  ∧ Settings.handleDeleteCategory d uid id st
    = (d, Settings.State
            (Settings.categories st) (Settings.users st) (Settings.slaConfig st)
            (Settings.toasts st
             ++ [TicketDetail.toast_error "Failed to delete category"])).
Proof.
  assert (H : delete_category d uid id = Err invalid_object_definition).
  { unfold delete_category. rewrite delete_where_is_rejected. reflexivity. }
  split; [exact H|]. unfold Settings.handleDeleteCategory. rewrite H.
  reflexivity.
Qed.

(** ** The ticket page *)

(** [fetchTicket] never loads a ticket: without a route id it does nothing,
    and with one it raises "Failed to load ticket" and navigates to the
    list, leaving the ticket, the comments and the loading flag as they
    were.  So whatever happens to a page and to the store, the page holds
    no ticket and no comment and is still loading. *)
Theorem fetchTicket_never_loads_a_ticket d uid :
  (∀ id st,
     TicketDetail.fetchTicket d uid id st
     = if bool_decide (id = "") then st
       else TicketDetail.State
              (TicketDetail.ticket st) (TicketDetail.comments st)
              (TicketDetail.newComment st) (TicketDetail.isInternalNote st)
              (TicketDetail.loading st)
              (TicketDetail.toasts st
               ++ [TicketDetail.toast_error "Failed to load ticket"])
              (Some "/tickets"))
  ∧ (∀ es,
       TicketDetail.ticket
         (TicketDetail.run uid es (d, TicketDetail.initial)).2 = None
       ∧ TicketDetail.comments
           (TicketDetail.run uid es (d, TicketDetail.initial)).2 = []
       ∧ TicketDetail.loading
           (TicketDetail.run uid es (d, TicketDetail.initial)).2 = true).
Proof.
  split.
  - intros id st. unfold TicketDetail.fetchTicket.
    rewrite select_ticket_single_is_rejected. reflexivity.
  - intros es. apply run_keeps_page_empty. repeat split.
Qed.

(** [handleCommentSubmit] stores no comment for any caller, an agent or a
    manager included: on a page that holds a ticket the insert is answered
    with an error, the page raises "Failed to add comment" and keeps its
    form and its comments; on a page that holds none it does nothing, and
    that is the page every run of events leads to. *)
Theorem comment_submit_is_rejected d uid cid now :
  (∀ st,
     TicketDetail.handleCommentSubmit d uid cid now st
     = (d, match TicketDetail.ticket st with
           | None => st
           | Some _ =>
               TicketDetail.State
                 (TicketDetail.ticket st) (TicketDetail.comments st)
                 (TicketDetail.newComment st) (TicketDetail.isInternalNote st)
                 (TicketDetail.loading st)
                 (TicketDetail.toasts st
                  ++ [TicketDetail.toast_error "Failed to add comment"])
                 (TicketDetail.navigated st)
           end))
  ∧ (∀ es,
       TicketDetail.handleCommentSubmit
         (TicketDetail.run uid es (d, TicketDetail.initial)).1 uid cid now
         (TicketDetail.run uid es (d, TicketDetail.initial)).2
       = TicketDetail.run uid es (d, TicketDetail.initial)).
Proof.
  assert (H : ∀ d st,
     TicketDetail.handleCommentSubmit d uid cid now st
     = (d, match TicketDetail.ticket st with
           | None => st
           | Some _ =>
               TicketDetail.State
                 (TicketDetail.ticket st) (TicketDetail.comments st)
                 (TicketDetail.newComment st) (TicketDetail.isInternalNote st)
                 (TicketDetail.loading st)
                 (TicketDetail.toasts st
                  ++ [TicketDetail.toast_error "Failed to add comment"])
                 (TicketDetail.navigated st)
           end)).
  { intros d0 st. unfold TicketDetail.handleCommentSubmit.
    destruct (TicketDetail.ticket st) as [[id t]|]; [|reflexivity].
    rewrite insert_comment_is_rejected. reflexivity. }
  split; [apply H|]. intros es. rewrite H.
  destruct (run_keeps_page_empty uid es (d, TicketDetail.initial))
    as (Ht & _); [repeat split|].
  rewrite Ht. destruct (TicketDetail.run uid es (d, TicketDetail.initial)).
  reflexivity.
Qed.

(** Agent G opens T1, ticks "Internal note", types and submits: the page is
    sent back to the list, still without a ticket, and the store is as it
    was. *)
Example agent_cannot_add_a_note :
  TicketDetail.run "G" Scenario.adds_note (Scenario.db1, TicketDetail.initial)
  = (Scenario.db1,
     TicketDetail.State None [] "Customer is on the legacy plan" true true
       [TicketDetail.toast_error "Failed to load ticket"] (Some "/tickets")).
Proof. reflexivity. Qed.

(** ** The ticket list *)

Lemma ticket_list_step_keeps_waiting uid st e :
  TicketList.tickets st = [] ∧ TicketList.loading st = true
  ∧ TicketList.userProfile st = None →
  TicketList.tickets (TicketList.step uid st e) = []
  ∧ TicketList.loading (TicketList.step uid st e) = true
  ∧ TicketList.userProfile (TicketList.step uid st e) = None.
Proof.
  intros (Ht & Hl & Hp). destruct e as [d|f]; cbn [TicketList.step].
  - unfold TicketList.effect. rewrite Hp.
    rewrite no_profile_is_shown_for. cbn. auto.
  - cbn. auto.
Qed.

(** The ticket list never leaves its spinner: the query for the caller's
    role is answered with an error, so the page never holds a profile,
    never sends the ticket query and never clears its loading flag,
    whatever the store holds and however often the effect runs or a filter
    is moved.  The ticket query itself would be answered with an error
    too. *)
Theorem ticket_list_keeps_waiting uid es :
  TicketList.tickets (TicketList.run uid es TicketList.initial) = []
  ∧ TicketList.loading (TicketList.run uid es TicketList.initial) = true
  ∧ TicketList.userProfile (TicketList.run uid es TicketList.initial) = None
  ∧ (∀ d profile f,
       TicketList.select_tickets d uid profile f = Err invalid_object_definition).
Proof.
  assert (H : ∀ st,
            TicketList.tickets st = [] ∧ TicketList.loading st = true
            ∧ TicketList.userProfile st = None →
            TicketList.tickets (TicketList.run uid es st) = []
            ∧ TicketList.loading (TicketList.run uid es st) = true
            ∧ TicketList.userProfile (TicketList.run uid es st) = None).
  { induction es as [|e es IH]; intros st Hst; [exact Hst|].
    simpl. apply IH, ticket_list_step_keeps_waiting, Hst. }
  destruct (H TicketList.initial) as (H1 & H2 & H3); [repeat split|].
  split; [exact H1|]. split; [exact H2|]. split; [exact H3|].
  intros d profile f. unfold TicketList.select_tickets.
  rewrite select_is_rejected. reflexivity.
Qed.

(** ** The dashboard's figures *)

(** Every ticket of the window is open, pending, resolved or closed, and the
    three counters of the dashboard leave out exactly the closed ones: the
    denominator of the resolution rate is the size of the window when no
    ticket is closed and smaller otherwise. *)
Theorem status_counts_leave_out_closed (ts : list Dashboard.ticket_stat) :
  (Dashboard.openCount ts + Dashboard.pendingCount ts
   + Dashboard.resolvedCount ts
   + length (List.filter (λ t, bool_decide (Dashboard.status t = closed)) ts)
   = length ts)%nat
  ∧ (Dashboard.urgentCount ts ≤ length ts)%nat
  ∧ ((Dashboard.openCount ts + Dashboard.pendingCount ts
      + Dashboard.resolvedCount ts = length ts)%nat
     ↔ Forall (λ t, Dashboard.status t ≠ closed) ts).
Proof.
  assert (Hsum : (Dashboard.openCount ts + Dashboard.pendingCount ts
                  + Dashboard.resolvedCount ts
                  + length (List.filter
                              (λ t, bool_decide (Dashboard.status t = closed)) ts)
                  = length ts)%nat
                 ∧ (Dashboard.urgentCount ts ≤ length ts)%nat).
  { unfold Dashboard.openCount, Dashboard.pendingCount,
      Dashboard.resolvedCount, Dashboard.urgentCount, Dashboard.is_resolved.
    induction ts as [|t ts [IH1 IH2]]; simpl; [lia|].
    destruct (Dashboard.status t),
      (bool_decide (Dashboard.priority t = urgent)); simpl; lia. }
  assert (Hclosed : length (List.filter
                              (λ t, bool_decide (Dashboard.status t = closed)) ts)
                    = 0%nat
                    ↔ Forall (λ t, Dashboard.status t ≠ closed) ts).
  { clear Hsum.
    induction ts as [|t ts IH]; simpl; [split; [constructor|reflexivity]|].
    rewrite Forall_cons, <- IH. case_bool_decide as Hs; simpl.
    - split; [discriminate|]. intros [? _]. contradiction.
    - tauto. }
  destruct Hsum as [Hsum Hurgent]. split; [exact Hsum|]. split; [exact Hurgent|].
  rewrite <- Hclosed. lia.
Qed.

Lemma ratio_bounds (a b : nat) :
  (0 < b)%nat → (a ≤ b)%nat →
  (0 <= Dashboard.of_nat a / Dashboard.of_nat b * 100
   ∧ Dashboard.of_nat a / Dashboard.of_nat b * 100 <= 100)%Q.
Proof.
  intros Hb Hab. unfold Dashboard.of_nat.
  destruct b as [|b]; [lia|].
  unfold Qdiv, Qinv, Qmult, Qle. simpl. split; nia.
Qed.

(** The number on the "Resolution Rate" card lies between 0 and 100, for
    every value of the counters. *)
Theorem resolutionRate_is_a_percentage (stats : Dashboard.DashboardStats.t) :
  (0 <= Dashboard.number_shown (Dashboard.resolutionRate stats)
   ∧ Dashboard.number_shown (Dashboard.resolutionRate stats) <= 100)%Q.
Proof.
  unfold Dashboard.resolutionRate. case_bool_decide as Hr; simpl.
  - apply ratio_bounds; lia.
  - split; unfold Qle; simpl; lia.
Qed.

(** Every bar of the "Agent Performance" card divides by a count that is not
    zero, and its width lies between 0 and 100 percent. *)
Theorem agent_bars_are_percentages (ts : list Dashboard.ticket_stat) name s :
  (name, s) ∈ Dashboard.ticketsByAgent ts →
  Dashboard.count s ≠ 0%nat
  ∧ (0 <= DashboardBars.agent_bar s ∧ DashboardBars.agent_bar s <= 100)%Q.
Proof.
  intros Hin. unfold Dashboard.ticketsByAgent, JS.entries in Hin.
  apply elem_of_map_to_list in Hin. rewrite agentPerformance_lookup in Hin.
  case_decide as Hd; [discriminate|]. injection Hin as <-. simpl.
  pose proof (assigned_resolved_le name ts).
  split; [lia|]. unfold DashboardBars.agent_bar. simpl.
  apply ratio_bounds; lia.
Qed.

Lemma agent_bars_are_percentages_witness :
  2%nat ≠ 0%nat
  ∧ (0 <= DashboardBars.agent_bar (Dashboard.AgentStats 2 2)
     ∧ DashboardBars.agent_bar (Dashboard.AgentStats 2 2) <= 100)%Q.
Proof.
  apply (agent_bars_are_percentages example_window "Grace"
           (Dashboard.AgentStats 2 2)).
  vm_compute. left.
Defined.

(** The names on the "Agent Performance" card are the non-empty names of the
    assignees in the window, each once, except that a name that
    [Object.prototype] defines never appears. *)
Theorem agent_names_are_the_assignees (ts : list Dashboard.ticket_stat) :
  NoDup (map fst (Dashboard.ticketsByAgent ts))
  ∧ ∀ name,
      name ∈ map fst (Dashboard.ticketsByAgent ts)
      ↔ (name ∉ JS.Object_prototype)
        ∧ ∃ t, t ∈ ts ∧ Dashboard.agent_of t = Some name.
Proof.
  split; [apply (NoDup_fst_map_to_list (Dashboard.agentPerformance ts))|].
  intros name.
  assert (Hcount : DashboardSpec.assigned name ts ≠ 0%nat
                   ↔ ∃ t, t ∈ ts ∧ Dashboard.agent_of t = Some name).
  { unfold DashboardSpec.assigned. induction ts as [|t ts IH]; simpl.
    - split; [congruence|]. intros (t & Ht & _). by apply elem_of_nil in Ht.
    - case_bool_decide as Ht; simpl.
      + split; [|lia]. intros _. exists t. split; [left|exact Ht].
      + rewrite IH. split.
        * intros (t' & Hin & Ha). exists t'. split; [right; exact Hin|exact Ha].
        * intros (t' & Hin & Ha). apply elem_of_cons in Hin as [->|Hin];
            [contradiction|eauto]. }
  rewrite <- Hcount. unfold Dashboard.ticketsByAgent, JS.entries.
  rewrite list_elem_of_fmap. split.
  - intros ([k s] & -> & Hin). apply elem_of_map_to_list in Hin.
    rewrite agentPerformance_lookup in Hin. simpl.
    case_decide as Hd; [discriminate|]. tauto.
  - intros [Hp Hn]. eexists (name, _). split; [reflexivity|].
    apply elem_of_map_to_list. rewrite agentPerformance_lookup.
    rewrite decide_False by tauto. reflexivity.
Qed.

(** ** Category counts, whatever the other categories are called *)

Lemma categoryCount_keys ts c :
  (c ∉ JS.Object_prototype →
   Dashboard.categoryCount ts !! c
   = if decide (DashboardSpec.tickets_with_category c ts = 0%nat) then None
     else Some (JS.number (DashboardSpec.tickets_with_category c ts)))
  ∧ (c ∈ JS.Object_prototype →
     Dashboard.categoryCount ts !! c = None
     ∨ Dashboard.categoryCount ts !! c = Some JS.text).
Proof.
  induction ts as [|t ts [IH1 IH2]] using rev_ind.
  - split; intros _; [reflexivity|left; reflexivity].
  - rewrite categoryCount_snoc, tickets_with_category_snoc.
    set (c' := Dashboard.category_of t) in *.
    set (acc := Dashboard.categoryCount ts) in *.
    destruct (decide (c' = c)) as [->|Hne].
    + rewrite bool_decide_eq_true_2 by reflexivity. split.
      * intros Hp. specialize (IH1 Hp). unfold JS.set_primitive.
        rewrite bool_decide_eq_false_2
          by (intros ->; apply Hp, proto_is_inherited).
        rewrite lookup_insert_eq. unfold JS.get. rewrite IH1.
        destruct (decide (DashboardSpec.tickets_with_category c ts = 0%nat))
          as [E|E].
        -- rewrite bool_decide_eq_false_2 by exact Hp. rewrite E. reflexivity.
        -- simpl. case_decide; [lia|reflexivity].
      * intros Hp. specialize (IH2 Hp). unfold JS.set_primitive.
        case_bool_decide; [exact IH2|]. right.
        rewrite lookup_insert_eq. unfold JS.get.
        destruct IH2 as [-> | ->]; [|reflexivity].
        rewrite bool_decide_eq_true_2 by exact Hp. reflexivity.
    + rewrite bool_decide_eq_false_2 by exact Hne. rewrite Nat.add_0_r.
      assert (Hsame : JS.set_primitive acc c'
                        (JS.or_zero_plus_one (JS.get acc c')) !! c = acc !! c).
      { unfold JS.set_primitive. case_bool_decide; [reflexivity|].
        apply lookup_insert_ne. exact Hne. }
      rewrite Hsame. split; assumption.
Qed.

(** Whatever the other tickets' categories are called, a category name that
    [Object.prototype] does not define is listed on the "Tickets by
    Category" card exactly when a ticket bears it, with the number of
    tickets bearing it as its count; a name that [Object.prototype] defines
    is never listed with a number; and no name is listed twice. *)
Theorem category_counts_off_inherited_names (ts : list Dashboard.ticket_stat) :
  NoDup (map fst (Dashboard.ticketsByCategory ts))
  ∧ (∀ c v, c ∉ JS.Object_prototype →
       (c, v) ∈ Dashboard.ticketsByCategory ts
       ↔ v = JS.number (DashboardSpec.tickets_with_category c ts)
         ∧ DashboardSpec.tickets_with_category c ts ≠ 0%nat)
  ∧ (∀ c n, c ∈ JS.Object_prototype →
       (c, JS.number n) ∉ Dashboard.ticketsByCategory ts).
Proof.
  split; [apply (NoDup_fst_map_to_list (Dashboard.categoryCount ts))|].
  unfold Dashboard.ticketsByCategory, JS.entries. split.
  - intros c v Hp. rewrite elem_of_map_to_list.
    rewrite (proj1 (categoryCount_keys ts c) Hp).
    case_decide as Hn.
    + split; [discriminate|]. intros [_ ?]. contradiction.
    + split; [intros [= <-]; auto | intros [-> _]; reflexivity].
  - intros c n Hp Hin. apply elem_of_map_to_list in Hin.
    destruct (proj2 (categoryCount_keys ts c) Hp) as [E|E];
      rewrite E in Hin; discriminate.
Qed.

Lemma category_counts_off_inherited_names_witness :
  ("Hardware", JS.number 2) ∈ Dashboard.ticketsByCategory
      (Dashboard.TicketStat open low (Some "constructor") None 0 0
       :: example_window)
  ∧ ("constructor", JS.number 1) ∉ Dashboard.ticketsByCategory
      (Dashboard.TicketStat open low (Some "constructor") None 0 0
       :: example_window).
Proof.
  split.
  - apply (proj1 (proj2 (category_counts_off_inherited_names
                           (Dashboard.TicketStat open low (Some "constructor")
                              None 0 0 :: example_window)))).
    + unfold JS.Object_prototype. intros Hin.
      repeat (apply elem_of_cons in Hin as [Hin|Hin]; [discriminate Hin|]).
      by apply elem_of_nil in Hin.
    + split; [reflexivity|]. vm_compute. discriminate.
  - apply (proj2 (proj2 (category_counts_off_inherited_names
                           (Dashboard.TicketStat open low (Some "constructor")
                              None 0 0 :: example_window)))).
    unfold JS.Object_prototype. left.
Defined.

(** ** The bars of the "Tickets by Category" card *)

Lemma clean_counts_are_positive ts :
  Forall (λ t, Dashboard.category_of t ∉ JS.Object_prototype) ts →
  Forall (λ v, ∃ n, v = JS.number n ∧ (1 ≤ n)%nat)
         (map snd (Dashboard.ticketsByCategory ts)).
Proof.
  intros Hclean. apply Forall_fmap, Forall_forall. intros [c v] Hin. simpl.
  unfold Dashboard.ticketsByCategory, JS.entries in Hin.
  apply elem_of_map_to_list in Hin.
  rewrite (categoryCount_lookup ts Hclean c) in Hin.
  case_decide as Hn; [discriminate|]. injection Hin as <-.
  eexists. split; [reflexivity|lia].
Qed.

Lemma mapM_to_number vs :
  Forall (λ v, ∃ n, v = JS.number n ∧ (1 ≤ n)%nat) vs →
  ∃ ns, mapM DashboardBars.to_number vs = Some ns
        ∧ vs = map JS.number ns ∧ Forall (λ n, (1 ≤ n)%nat) ns.
Proof.
  induction 1 as [|v vs (n & -> & Hn) _ (ns & Hns & -> & Hall)].
  - exists []. repeat split. constructor.
  - exists (n :: ns). cbn. rewrite Hns. repeat split. constructor; assumption.
Qed.

Lemma max_count_spec n ns :
  ∃ m, DashboardBars.max_count (n :: ns) = Some m
       ∧ m ∈ n :: ns ∧ Forall (λ k, (k ≤ m)%nat) (n :: ns).
Proof.
  unfold DashboardBars.max_count. eexists. split; [reflexivity|].
  induction ns as [|k ns [IHin IHle]]; simpl.
  - split; [left|]. repeat constructor.
  - apply Forall_cons in IHle as [Hn Hle]. split.
    + destruct (Nat.max_spec k (foldr Nat.max n ns)) as [[_ ->]|[_ ->]].
      * apply elem_of_cons in IHin as [->|Hin]; [left|right; right; exact Hin].
      * right; left.
    + repeat apply Forall_cons_2; [lia|lia|].
      eapply Forall_impl; [exact Hle|]. simpl. intros. lia.
Qed.

(** On a window whose category names are not defined by [Object.prototype],
    every bar of the "Tickets by Category" card has a width that is a
    number, above 0 and at most 100 percent, and when the window is not
    empty some bar is exactly 100 percent wide. *)
Theorem category_bars_are_percentages (ts : list Dashboard.ticket_stat) :
  Forall (λ t, Dashboard.category_of t ∉ JS.Object_prototype) ts →
  (∀ c w, (c, w) ∈ DashboardBars.category_bars (Dashboard.ticketsByCategory ts) →
          ∃ q, w = Some q ∧ (0 < q ∧ q <= 100)%Q)
  ∧ (ts ≠ [] →
     ∃ c q, (c, Some q)
              ∈ DashboardBars.category_bars (Dashboard.ticketsByCategory ts)
            ∧ (q == 100)%Q).
Proof.
  intros Hclean.
  destruct (mapM_to_number _ (clean_counts_are_positive ts Hclean))
    as (ns & HmapM & Hvs & Hpos).
  set (es := Dashboard.ticketsByCategory ts) in *.
  assert (Hbar : ∀ c n, (c, JS.number n) ∈ es →
            ∃ m, DashboardBars.max_count ns = Some m ∧ m ∈ ns
                 ∧ (1 ≤ n ≤ m)%nat
                 ∧ DashboardBars.category_bar (map snd es) (JS.number n)
                   = Some (Dashboard.of_nat n / Dashboard.of_nat m * 100)%Q).
  { intros c n Hin.
    assert (Hn : n ∈ ns).
    { assert (JS.number n ∈ map snd es) as Hv
        by (apply list_elem_of_fmap; exists (c, JS.number n); auto).
      rewrite Hvs in Hv. apply list_elem_of_fmap in Hv as (n' & [= ->] & Hn').
      exact Hn'. }
    destruct ns as [|n0 ns0]; [by apply elem_of_nil in Hn|].
    destruct (max_count_spec n0 ns0) as (m & Hm & Hmin & Hmle).
    exists m. split; [exact Hm|]. split; [exact Hmin|].
    rewrite Forall_forall in Hmle, Hpos.
    pose proof (Hmle n Hn). pose proof (Hpos n Hn). split; [lia|].
    unfold DashboardBars.category_bar. rewrite HmapM.
    cbn [DashboardBars.to_number]. rewrite Hm.
    destruct m; [lia|reflexivity]. }
  assert (Hentry : ∀ c v, (c, v) ∈ es → ∃ n, v = JS.number n).
  { intros c v Hin.
    pose proof (clean_counts_are_positive ts Hclean) as Hall.
    rewrite Forall_forall in Hall.
    destruct (Hall v) as (n & -> & _); [|eauto].
    apply list_elem_of_fmap. exists (c, v). auto. }
  split.
  - intros c w Hin. unfold DashboardBars.category_bars in Hin.
    apply list_elem_of_fmap in Hin as ([c' v] & [= -> ->] & Hin).
    destruct (Hentry _ _ Hin) as (n & ->).
    destruct (Hbar _ _ Hin) as (m & _ & _ & Hnm & ->).
    eexists. split; [reflexivity|].
    destruct (ratio_bounds n m) as [_ Hle]; [lia|lia|]. split; [|exact Hle].
    unfold Dashboard.of_nat. destruct m as [|m]; [lia|]. destruct n as [|n]; [lia|].
    unfold Qdiv, Qinv, Qmult, Qlt. simpl. lia.
  - intros Hne.
    assert (Hns : ns ≠ []).
    { intros ->. destruct ts as [|t ts']; [congruence|].
      assert (Hin : (Dashboard.category_of t,
                     JS.number (DashboardSpec.tickets_with_category
                                  (Dashboard.category_of t) (t :: ts'))) ∈ es).
      { apply elem_of_map_to_list.
        rewrite (categoryCount_lookup _ Hclean).
        rewrite decide_False; [reflexivity|].
        unfold DashboardSpec.tickets_with_category. simpl.
        rewrite bool_decide_eq_true_2 by reflexivity. simpl. lia. }
      destruct (Hbar _ _ Hin) as (m & _ & Hm & _). by apply elem_of_nil in Hm. }
    destruct ns as [|n0 ns0]; [congruence|].
    destruct (max_count_spec n0 ns0) as (m & Hm & Hmin & _).
    assert (Hv : JS.number m ∈ map snd es)
      by (rewrite Hvs; apply list_elem_of_fmap; eauto).
    apply list_elem_of_fmap in Hv as ([c v] & Hcv & Hin). simpl in Hcv. subst v.
    destruct (Hbar _ _ Hin) as (m' & Hm' & _ & Hnm & Hw).
    rewrite Hm in Hm'. injection Hm' as <-.
    exists c. eexists. split.
    + unfold DashboardBars.category_bars. apply list_elem_of_fmap.
      exists (c, JS.number m). split; [|exact Hin]. simpl. rewrite Hw. reflexivity.
    + unfold Dashboard.of_nat. destruct m as [|m]; [lia|].
      unfold Qdiv, Qinv, Qmult, Qeq. simpl. lia.
Qed.

Lemma category_bars_are_percentages_witness :
  ∃ c q, (c, Some q)
           ∈ DashboardBars.category_bars (Dashboard.ticketsByCategory example_window)
         ∧ (q == 100)%Q.
Proof.
  apply (proj2 (category_bars_are_percentages example_window
                  ltac:(repeat constructor; vm_compute; intros H;
                        repeat (apply elem_of_cons in H as [H|H];
                                [discriminate H|]);
                        by apply elem_of_nil in H))).
  discriminate.
Defined.

(** A count that is a string spoils every bar: with one category called
    "constructor" in the window, no bar has a numeric width. *)
Example category_bars_with_inherited_name :
  DashboardBars.category_bars
    (Dashboard.ticketsByCategory
       [Dashboard.TicketStat open low (Some "constructor") None 0 0;
        Dashboard.TicketStat open low (Some "Hardware") None 0 0])
  ≡ₚ [("constructor", None); ("Hardware", None)].
Proof. vm_compute. reflexivity. Qed.

(** ** The session: loading, the guard *)

(** Once the session store has stopped loading it never loads again,
    whatever actions follow; a successful sign-in, a completed sign-out and
    a session reported by the provider each stop the loading; sign-up never
    changes the loading flag, so sign-ups alone leave a loading store
    loading. *)
Theorem loading_never_returns (st : useAuth.AuthState) :
  (∀ actions, useAuth.loading st = false →
              useAuth.loading (AuthFlow.run actions st) = false)
  ∧ (∀ responses,
       useAuth.loading
         (AuthFlow.run (map AuthFlow.SignUp responses) st)
       = useAuth.loading st)
  ∧ (∀ u, useAuth.loading
            (AuthFlow.apply_action st
               (AuthFlow.SignIn
                  (useAuth.fulfilled (AuthFlow.MkAuthResponse u None))))
          = false)
  ∧ (∀ response,
       useAuth.loading
         (AuthFlow.apply_action st
            (AuthFlow.SignOut (useAuth.fulfilled response))) = false)
  ∧ (∀ u, useAuth.loading (AuthFlow.apply_action st (AuthFlow.Session u))
          = false).
Proof.
  split; [|split; [|repeat split]].
  - intros actions. revert st. induction actions as [|a actions IH];
      intros st Hst; [exact Hst|].
    simpl. apply IH.
    destruct a as [[r|?]|[r|?]|[r|?]|u]; simpl; try exact Hst; try reflexivity;
      destruct (AuthFlow.response_error r); simpl; auto.
  - intros responses. revert st.
    induction responses as [|r rs IH]; intros st; [reflexivity|].
    simpl. rewrite IH. destruct r as [r|?]; simpl; [|reflexivity].
    destruct (AuthFlow.response_error r); reflexivity.
Qed.

Lemma loading_never_returns_witness :
  useAuth.loading
    (AuthFlow.run
       [AuthFlow.SignIn (useAuth.rejected "offline");
        AuthFlow.SignUp (useAuth.fulfilled
                           (AuthFlow.MkAuthResponse (Some (useAuth.MkUser "A")) None))]
       (useAuth.setUser None useAuth.initial)) = false.
Proof.
  apply (proj1 (loading_never_returns (useAuth.setUser None useAuth.initial))).
  reflexivity.
Defined.

(** A sign-in or a sign-up that fails, by a rejected call or by an error in
    the response, throws and leaves the session as it was, so the guard
    renders what it rendered before; whatever happened before, after a
    completed sign-out the guard redirects to "/login", remembering the
    location; and the guard lets a page through only when the store has
    stopped loading and holds a user. *)
Theorem guard_follows_the_session (st : useAuth.AuthState) (location : string) :
  (∀ external,
     (AuthFlow.signIn external st).1 ≠ useAuth.fulfilled tt →
     (AuthFlow.signIn external st).2 = st)
  ∧ (∀ external,
       (∀ response,
          (AuthFlow.signUp external st).1 ≠ useAuth.fulfilled response) →
       (AuthFlow.signUp external st).2 = st)
  ∧ (∀ actions response,
       AuthFlow.ProtectedRoute
         (AuthFlow.run
            (actions ++ [AuthFlow.SignOut (useAuth.fulfilled response)]) st)
         location
       = AuthFlow.Navigate "/login" location)
  ∧ (AuthFlow.ProtectedRoute st location = AuthFlow.Outlet
     ↔ useAuth.loading st = false ∧ is_Some (useAuth.user st)).
Proof.
  split; [|split; [|split]].
  - intros [r|?]; simpl; [|reflexivity].
    destruct (AuthFlow.response_error r); simpl; [reflexivity|congruence].
  - intros [r|?]; simpl; [|reflexivity].
    destruct (AuthFlow.response_error r); simpl; [reflexivity|].
    intros H. exfalso. apply (H r). reflexivity.
  - intros actions response. unfold AuthFlow.run. rewrite fold_left_app.
    reflexivity.
  - unfold AuthFlow.ProtectedRoute.
    destruct (useAuth.loading st);
      [split; [discriminate | intros [[=] _]]|].
    destruct (useAuth.user st) as [u|]; split.
    + intros _. split; [reflexivity|]. exists u. reflexivity.
    + reflexivity.
    + discriminate.
    + intros [_ [? [=]]].
Qed.

Lemma guard_follows_the_session_witness :
  (AuthFlow.signIn
     (useAuth.fulfilled
        (AuthFlow.MkAuthResponse None (Some (useAuth.MkAuthError "Invalid login"))))
     useAuth.initial).2 = useAuth.initial
  ∧ (AuthFlow.signUp (useAuth.rejected "offline") useAuth.initial).2
    = useAuth.initial.
Proof.
  split.
  - apply (proj1 (guard_follows_the_session useAuth.initial "/tickets")).
    discriminate.
  - apply (proj1 (proj2 (guard_follows_the_session useAuth.initial "/tickets"))).
    discriminate.
Defined.

(** ** The SLA table *)

(** [handleSLAUpdate] keeps the priorities of the table and their order; in
    every row of the named priority the named field takes the new value;
    every other field of every row keeps its value; and naming a priority
    that the table does not hold changes nothing.  From the initial table
    the priorities stay urgent, high, medium, low under every sequence of
    updates. *)
Theorem sla_update_changes_one_field p field value
    (config : list Settings.SLAConfig) :
  map Settings.priority (Settings.handleSLAUpdate p field value config)
  = map Settings.priority config
  ∧ (∀ c, c ∈ Settings.handleSLAUpdate p field value config →
          Settings.priority c = p → Settings.get_field field c = value)
  ∧ (∀ i c c' f,
       config !! i = Some c →
       Settings.handleSLAUpdate p field value config !! i = Some c' →
       Settings.priority c ≠ p ∨ f ≠ field →
       Settings.get_field f c' = Settings.get_field f c)
  ∧ (p ∉ map Settings.priority config →
     Settings.handleSLAUpdate p field value config = config)
  ∧ (∀ updates,
       map Settings.priority
         (fold_left (λ cfg u, Settings.handleSLAUpdate u.1.1 u.1.2 u.2 cfg)
                    updates (Settings.slaConfig Settings.initial))
       = ["urgent"; "high"; "medium"; "low"]).
Proof.
  assert (Hprio : ∀ q f v cfg,
            map Settings.priority (Settings.handleSLAUpdate q f v cfg)
            = map Settings.priority cfg).
  { intros q f v cfg. unfold Settings.handleSLAUpdate.
    rewrite map_map. apply map_ext. intros c.
    case_bool_decide; [destruct f|]; reflexivity. }
  split; [apply Hprio|]. split; [|split; [|split]].
  - intros c Hin Hp. unfold Settings.handleSLAUpdate in Hin.
    apply list_elem_of_fmap in Hin as (c0 & -> & _).
    case_bool_decide as Hc0.
    + destruct field; reflexivity.
    + exfalso. apply Hc0. exact Hp.
  - intros i c c' f Hc Hc' Hor. unfold Settings.handleSLAUpdate in Hc'.
    rewrite list_lookup_fmap, Hc in Hc'. simpl in Hc'. injection Hc' as <-.
    case_bool_decide as Hp; [|reflexivity].
    destruct Hor as [?|Hf]; [contradiction|].
    destruct f, field; try reflexivity; contradiction.
  - intros Hp. unfold Settings.handleSLAUpdate.
    rewrite <- (map_id config) at 2. apply map_ext_in. intros c Hin.
    rewrite bool_decide_eq_false_2; [reflexivity|].
    intros E. apply Hp. apply list_elem_of_fmap. exists c.
    split; [congruence|apply list_elem_of_In, Hin].
  - intros updates.
    change ["urgent"; "high"; "medium"; "low"]
      with (map Settings.priority (Settings.slaConfig Settings.initial)).
    generalize (Settings.slaConfig Settings.initial).
    induction updates as [|u us IH]; intros cfg; [reflexivity|].
    simpl. rewrite IH. apply Hprio.
Qed.

Lemma sla_update_changes_one_field_witness :
  Settings.handleSLAUpdate "critical" Settings.response_time_field
    (Settings.Hours 2) (Settings.slaConfig Settings.initial)
  = Settings.slaConfig Settings.initial
  ∧ Settings.get_field Settings.response_time_field
      (Settings.MkSLA "high" (Settings.Hours 2) (Settings.Hours 8))
    = Settings.Hours 2.
Proof.
  split.
  - apply (proj1 (proj2 (proj2 (proj2 (sla_update_changes_one_field "critical"
             Settings.response_time_field (Settings.Hours 2)
             (Settings.slaConfig Settings.initial)))))).
    vm_compute. intros H.
    repeat (apply elem_of_cons in H as [H|H]; [discriminate H|]).
    by apply elem_of_nil in H.
  - apply (proj1 (proj2 (sla_update_changes_one_field "high"
             Settings.response_time_field (Settings.Hours 2)
             (Settings.slaConfig Settings.initial)))).
    + vm_compute. right; left.
    + reflexivity.
Defined.
